(** * Ledger: the upload widgets

    A shallow embedding of the two browser scripts of the repository that
    stage local files and post them to the server:

    - [Assignment]: [load-assignment/script.js], lines 1-94, which posts to
      [/upload], deduplicates the staged files on (name, size), lets the user
      remove a staged file, and reports the outcome in a status element;
    - [Notes]: the second script (lines 94-165 of the same listing), which
      posts to [/notes/upload], stages every file it is handed, and reports
      the outcome with [alert].

    The scripts run on a JavaScript engine and a DOM.  What the handlers
    observe of them is modelled first: completions (normal or thrown), the
    values [JSON.parse] can return, the conversions the handlers apply to
    those values, what the HTML parser makes of an item's markup, and a
    state-and-exception monad in which the handlers are written statement by
    statement. *)

From Stdlib Require Import List String Ascii Bool Arith NArith Lia DecimalString.
Import ListNotations.
Open Scope string_scope.

(* ================================================================== *)
(** ** Strings *)

(** [s.includes(needle)] *)
Fixpoint includes (s needle : string) : bool :=
  String.prefix needle s ||
  match s with
  | EmptyString => false
  | String _ rest => includes rest needle
  end.

(** Decimal rendering of an integer inside a template literal. *)
Definition string_of_N (n : N) : string := NilEmpty.string_of_uint (N.to_uint n).
Definition string_of_nat (n : nat) : string := NilEmpty.string_of_uint (Nat.to_uint n).

(** The double-quote character, for writing JSON texts. *)
Definition dq : string := String (ascii_of_nat 34) EmptyString.

(* ================================================================== *)
(** ** Completions and errors *)

(** An [Error] object as the handlers use it: [console.error(err)] and
    [err.message]. *)
Record JsError : Type := mkError { err_name : string; err_message : string }.

Inductive Completion (A : Type) : Type :=
| Normal (a : A)
| Throw (e : JsError).
Arguments Normal {A} a.
Arguments Throw {A} e.

(* ================================================================== *)
(** ** Values produced by [JSON.parse] *)

(** An IEEE-754 double is kept abstract.  The handlers observe a number
    only through [ToBoolean] (false for +0, -0 and NaN) and through
    [ToString]. *)
Record Number : Type := mkNumber { number_is_zero : bool; number_text : string }.

#[warnings="-register-all"] Inductive JsValue : Type :=
| JUndefined
| JNull
| JBool (b : bool)
| JNumber (n : Number)
| JString (s : string)
| JArray (items : list JsValue)
| JObject (props : list (string * JsValue)).

(** Own data property of an object literal. *)
Fixpoint own_property (p : string) (props : list (string * JsValue)) : option JsValue :=
  match props with
  | [] => None
  | (k, v) :: rest => if String.eqb k p then Some v else own_property p rest
  end.

Definition ToBoolean (v : JsValue) : bool :=
  match v with
  | JUndefined | JNull => false
  | JBool b => b
  | JNumber n => negb (number_is_zero n)
  | JString s => negb (String.eqb s EmptyString)
  | JArray _ | JObject _ => true
  end.

(** [v === 'literal'] *)
Definition strict_eq_string (v : JsValue) (lit : string) : bool :=
  match v with
  | JString s => String.eqb s lit
  | _ => false
  end.

(** [a || b] *)
Definition js_or (a b : JsValue) : JsValue := if ToBoolean a then a else b.

(** The engine-dependent part: the parsers, number formatting and the
    texts of the errors the engine itself throws. *)
Record Engine : Type := mkEngine {
  (** [JSON.parse(text)]: the value, or the [SyntaxError] thrown. *)
  JSON_parse : string -> Completion JsValue;
  (** message of the [TypeError] for reading property [p] of null or undefined *)
  read_of_nullish_message : JsValue -> string -> string;
  (** message of the [TypeError] for an object with no primitive value *)
  to_primitive_message : string;
  (** [(size/1024/1024).toFixed(2)] *)
  megabytes_toFixed2 : N -> string;
  (** whether an element whose [innerHTML] was set to [html] has a
      descendant of class [remove]: [querySelector('.remove')] is not null *)
  has_remove_element : string -> bool;
  (** message of the [TypeError] for setting property [p] of null *)
  set_on_null_message : string -> string
}.

Section Conversions.
Variable E : Engine.

(** [v.p] for a property name [p] that no built-in prototype defines
    (the handlers read only [status] and [message]). *)
Definition Get (v : JsValue) (p : string) : Completion JsValue :=
  match v with
  | JUndefined | JNull =>
      Throw (mkError "TypeError" (read_of_nullish_message E v p))
  | JObject props =>
      Normal (match own_property p props with Some x => x | None => JUndefined end)
  | JBool _ | JNumber _ | JString _ | JArray _ => Normal JUndefined
  end.

(** [ToString(v)].  A parsed object inherits [Object.prototype.toString]
    unless it has an own [toString] property; that one is data, not a
    function, and [valueOf] then yields no primitive either, so the
    conversion throws.  An array is joined with commas, null and
    undefined elements printing as the empty string. *)
Fixpoint ToString (v : JsValue) : Completion string :=
  match v with
  | JUndefined => Normal "undefined"
  | JNull => Normal "null"
  | JBool true => Normal "true"
  | JBool false => Normal "false"
  | JNumber n => Normal (number_text n)
  | JString s => Normal s
  | JArray items =>
      (fix join (l : list JsValue) : Completion string :=
         match l with
         | [] => Normal EmptyString
         | x :: rest =>
             match (match x with
                    | JUndefined | JNull => Normal EmptyString
                    | _ => ToString x
                    end) with
             | Throw e => Throw e
             | Normal sx =>
                 match rest with
                 | [] => Normal sx
                 | _ :: _ =>
                     match join rest with
                     | Throw e => Throw e
                     | Normal sr => Normal (sx ++ "," ++ sr)
                     end
                 end
             end
         end) items
  | JObject props =>
      match own_property "toString" props with
      | Some _ => Throw (mkError "TypeError" (to_primitive_message E))
      | None => Normal "[object Object]"
      end
  end.

(** Conversion to a nullable [DOMString], as the [textContent] setter
    does it: null and undefined stand for the empty string. *)
Definition ToDOMString (v : JsValue) : Completion string :=
  match v with
  | JUndefined | JNull => Normal EmptyString
  | _ => ToString v
  end.
End Conversions.

(* ================================================================== *)
(** ** The network, as a handler sees it *)

(** A [Response]: [res.status], [res.headers.get('content-type')] and the
    completion of [res.text()]. *)
Record Response : Type := mkResponse {
  res_status : N;
  res_content_type : option string;
  res_text : Completion string
}.

(** [res.ok] *)
Definition res_ok (r : Response) : bool :=
  (200 <=? res_status r)%N && (res_status r <=? 299)%N.

(** What awaiting [fetch(...)] gives: a rejection (the transport failed
    before any response) or a response. *)
Inductive NetReply : Type :=
| Rejected (e : JsError)
| Responded (r : Response).

(** The two bodies of the endpoint's contract: the object whose [status]
    is [success], and the one whose [status] is [error] and whose [message]
    is [too large]. *)
Definition success_body : string :=
  "{" ++ dq ++ "status" ++ dq ++ ":" ++ dq ++ "success" ++ dq ++ "}".

Definition too_large_body : string :=
  "{" ++ dq ++ "status" ++ dq ++ ":" ++ dq ++ "error" ++ dq ++ ","
      ++ dq ++ "message" ++ dq ++ ":" ++ dq ++ "too large" ++ dq ++ "}".

Definition too_large_data : JsValue :=
  JObject [("status", JString "error"); ("message", JString "too large")].

(* ================================================================== *)
(** ** Statements: state and exceptions *)

Definition Js (S A : Type) : Type := S -> Completion A * S.

Definition ret {S A} (a : A) : Js S A := fun s => (Normal a, s).

Definition bind {S A B} (c : Js S A) (k : A -> Js S B) : Js S B :=
  fun s =>
    match c s with
    | (Normal a, s') => k a s'
    | (Throw e, s') => (Throw e, s')
    end.

Definition throw {S A} (e : JsError) : Js S A := fun s => (Throw e, s).

(** [try { body } catch (err) { handler }] *)
Definition try_catch {S A} (body : Js S A) (handler : JsError -> Js S A) : Js S A :=
  fun s =>
    match body s with
    | (Normal a, s') => (Normal a, s')
    | (Throw e, s') => handler e s'
    end.

Definition gets {S A} (f : S -> A) : Js S A := fun s => (Normal (f s), s).
Definition modify {S} (f : S -> S) : Js S unit := fun s => (Normal tt, f s).

(** An expression whose evaluation may throw. *)
Definition eval {S A} (c : Completion A) : Js S A := fun s => (c, s).

(** [items.forEach(callback)]: a callback that throws ends the loop. *)
Fixpoint forEach {S A} (callback : A -> Js S unit) (items : list A) : Js S unit :=
  match items with
  | [] => ret tt
  | item :: rest => bind (callback item) (fun _ => forEach callback rest)
  end.

Declare Scope js_scope.
Delimit Scope js_scope with js.
Notation "x <- c ;; k" := (bind c (fun x => k))
  (at level 61, c at next level, right associativity) : js_scope.
Notation "c ;; k" := (bind c (fun _ => k))
  (at level 61, right associativity) : js_scope.
Open Scope js_scope.

(* ================================================================== *)
(** ** Files, requests and the calls a handler makes on the platform *)

(** A [File] object.  [handle] stands for the object itself (the binary
    content behind it): two picks of equal name and size are two objects
    with different handles.  A [File] is immutable, so [f === g] is
    equality of the three fields. *)
Record File : Type := mkFile { name : string; size : N; handle : nat }.

Definition File_eqb (f g : File) : bool :=
  String.eqb (name f) (name g) && N.eqb (size f) (size g) && Nat.eqb (handle f) (handle g).

(** One entry of a [FormData]: a text field or a file. *)
Inductive Part : Type :=
| Field (value : string)
| Blob (f : File).

Definition FormData : Type := list (string * Part).

(** Calls on the platform, in the order they are made. *)
Inductive Effect : Type :=
| Fetch (url method : string) (body : FormData)
| JsonParse (text : string)
| ConsoleLog (args : list string)
| ConsoleError (e : JsError)
| Alert (message : string).

Definition is_Fetch (e : Effect) : bool :=
  match e with Fetch _ _ _ => true | _ => false end.
Definition is_JsonParse (e : Effect) : bool :=
  match e with JsonParse _ => true | _ => false end.

(** The requests, and the parse attempts, among the calls of a trace. *)
Definition requests (t : list Effect) : list Effect := filter is_Fetch t.
Definition parses (t : list Effect) : list Effect := filter is_JsonParse t.

(** The fields of a form: what [new FormData(form)] collects, and the
    values [form.reset()] restores. *)
Record Form : Type := mkForm {
  form_values : list (string * string);
  form_defaults : list (string * string)
}.

Definition Form_reset (f : Form) : Form :=
  {| form_values := form_defaults f; form_defaults := form_defaults f |}.

(* ================================================================== *)
(** * [load-assignment/script.js] *)

Module Assignment.

(** The status element: [status.textContent] and [status.className]. *)
Record Status : Type := mkStatus { textContent : string; className : string }.

(** An [<li>] created by [handleFiles]: the node [document.createElement]
    returned, and the file its remove button captured.  The markup of the
    item is a function of that file. *)
Record Li : Type := mkLi { li_node : nat; li_file : File }.

(** The state the closures of the script share: the variable
    [selectedFiles] and the elements the script looked up. *)
Record Widget : Type := mkWidget {
  selectedFiles : list File;
  fileListEl : list Li;             (* children of #fileList *)
  status : Status;                  (* #status *)
  form : Form;                      (* #uploadForm *)
  fileInput_value : string;         (* #fileInput *)
  highlight : bool;                 (* #dropArea has class highlight *)
  next_node : nat;                  (* nodes created so far *)
  trace : list Effect
}.

Definition set_selectedFiles (v : list File) (w : Widget) : Widget :=
  mkWidget v (fileListEl w) (status w) (form w) (fileInput_value w)
           (highlight w) (next_node w) (trace w).
Definition set_fileListEl (v : list Li) (w : Widget) : Widget :=
  mkWidget (selectedFiles w) v (status w) (form w) (fileInput_value w)
           (highlight w) (next_node w) (trace w).
Definition set_status (v : Status) (w : Widget) : Widget :=
  mkWidget (selectedFiles w) (fileListEl w) v (form w) (fileInput_value w)
           (highlight w) (next_node w) (trace w).
Definition set_form (v : Form) (w : Widget) : Widget :=
  mkWidget (selectedFiles w) (fileListEl w) (status w) v (fileInput_value w)
           (highlight w) (next_node w) (trace w).
Definition set_fileInput_value (v : string) (w : Widget) : Widget :=
  mkWidget (selectedFiles w) (fileListEl w) (status w) (form w) v
           (highlight w) (next_node w) (trace w).
Definition set_highlight (v : bool) (w : Widget) : Widget :=
  mkWidget (selectedFiles w) (fileListEl w) (status w) (form w) (fileInput_value w)
           v (next_node w) (trace w).
Definition set_next_node (v : nat) (w : Widget) : Widget :=
  mkWidget (selectedFiles w) (fileListEl w) (status w) (form w) (fileInput_value w)
           (highlight w) v (trace w).
Definition log (e : Effect) (w : Widget) : Widget :=
  mkWidget (selectedFiles w) (fileListEl w) (status w) (form w) (fileInput_value w)
           (highlight w) (next_node w) (trace w ++ [e]).

Definition set_textContent (s : string) (w : Widget) : Widget :=
  set_status (mkStatus s (className (status w))) w.
Definition set_className (s : string) (w : Widget) : Widget :=
  set_status (mkStatus (textContent (status w)) s) w.

(** The widget when [DOMContentLoaded] has run: nothing staged, nothing
    listed. *)
Definition initial (w : Widget) : Prop :=
  selectedFiles w = [] /\ fileListEl w = [].

(* ------------------------------------------------------------------ *)
(** ** Staging files (lines 29-45) *)

(** The test of line 31: [f.name === file.name && f.size === file.size]. *)
Definition same_key (f file : File) : bool :=
  String.eqb (name f) (name file) && N.eqb (size f) (size file).

Section Listeners.
Variable E : Engine.

(** Lines 35-38: the template literal assigned to [li.innerHTML].  The
    file's name goes into it as it is. *)
Definition markup (file : File) : string :=
  let nl := String (ascii_of_nat 10) EmptyString in
  nl ++ "        " ++ name file
     ++ " <small>(" ++ megabytes_toFixed2 E (size file) ++ " MB)</small>"
     ++ nl ++ "        <button type=" ++ dq ++ "button" ++ dq
     ++ " class=" ++ dq ++ "remove" ++ dq
     ++ " title=" ++ dq ++ "Remove" ++ dq ++ ">×</button>"
     ++ nl ++ "      ".

(** Whether the item built for [file] has a remove button to give a
    listener to. *)
Definition listable (file : File) : bool := has_remove_element E (markup file).

(** [document.createElement('li')] *)
Definition createElement : Js Widget nat :=
  node <- gets next_node ;;
  modify (set_next_node (S node)) ;;
  ret node.

(** The body of the [forEach] callback, for one file (lines 31-43).  The
    push of line 32 comes first; line 39 throws when the markup has no
    element of class [remove], and the item is then never appended. *)
Definition handleFile (file : File) : Js Widget unit :=
  sel <- gets selectedFiles ;;
  if existsb (fun f => same_key f file) sel then ret tt
  else
    modify (fun w => set_selectedFiles (selectedFiles w ++ [file]) w) ;;
    node <- createElement ;;
    (if listable file then ret tt
     else throw (mkError "TypeError" (set_on_null_message E "onclick"))) ;;
    modify (fun w => set_fileListEl (fileListEl w ++ [mkLi node file]) w).

(** [handleFiles(fileList)] *)
Definition handleFiles (fileList : list File) : Js Widget unit :=
  forEach handleFile fileList.

(** Line 40: [selectedFiles.filter(f => f !== file)], removal by identity. *)
Definition remove_by_identity (file : File) (selection : list File) : list File :=
  filter (fun f => negb (File_eqb f file)) selection.

(** The [onclick] that line 39 gives the remove button of [li]. *)
Definition remove_onclick (li : Li) (w : Widget) : Widget :=
  set_fileListEl (filter (fun l => negb (Nat.eqb (li_node l) (li_node li))) (fileListEl w))
    (set_selectedFiles (remove_by_identity (li_file li) (selectedFiles w)) w).

(* ------------------------------------------------------------------ *)
(** ** Input events (lines 10-27) *)

(** [dragover], [dragenter] *)
Definition on_dragover (w : Widget) : Widget := set_highlight true w.

(** [dragleave] *)
Definition on_dragleave (w : Widget) : Widget := set_highlight false w.

(** The [change] listener of the picker, lines 24-27. *)
Definition change_listener (files : list File) : Js Widget unit :=
  handleFiles files ;;
  modify (set_fileInput_value EmptyString).

(** [drop]: both listeners, in the order they were added.  The page after
    the event, whether or not the second listener threw. *)
Definition on_drop (files : list File) (w : Widget) : Widget :=
  snd (handleFiles files (set_highlight false w)).

(** [change] of the picker: the page after the event, whether or not the
    listener threw. *)
Definition on_change (files : list File) (w : Widget) : Widget :=
  snd (change_listener files w).





(* ------------------------------------------------------------------ *)
(** ** Submitting (lines 47-93) *)

(** [await fetch(url, { method: 'POST', body })], the network answering
    with [reply]. *)
Definition fetch (reply : NetReply) (url : string) (body : FormData)
  : Js Widget Response :=
  modify (log (Fetch url "POST" body)) ;;
  eval (match reply with
        | Rejected e => Throw e
        | Responded r => Normal r
        end).

Definition json_parse (text : string) : Js Widget JsValue :=
  modify (log (JsonParse text)) ;;
  eval (JSON_parse E text).

Definition shown (o : option string) : string :=
  match o with Some s => s | None => "null" end.

(** The text line 90 shows for an error of message [message]. *)
Definition error_text (message : string) : string :=
  if includes message "JSON" then "Server response invalid" else message.

(** The [catch] block, lines 88-92. *)
Definition on_error (err : JsError) : Js Widget unit :=
  modify (log (ConsoleError err)) ;;
  modify (set_textContent (error_text (err_message err))) ;;
  modify (set_className "error").

(** The error of line 73. *)
Definition http_error (res : Response) (text : string) : JsError :=
  mkError "Error" ("HTTP " ++ string_of_N (res_status res) ++ ": " ++ text).

(** The two [console.log] calls of lines 67 and 70. *)
Definition log_status (res : Response) : Effect :=
  ConsoleLog ["Status:"; string_of_N (res_status res);
              "Content-Type:"; shown (res_content_type res)].
Definition log_raw (text : string) : Effect :=
  ConsoleLog ["Raw response:"; text].

(** The [try] block, lines 61-87. *)
Definition upload (reply : NetReply) (formData : FormData) : Js Widget unit :=
  n <- gets (fun w => List.length (selectedFiles w)) ;;
  modify (set_textContent ("Uploading " ++ string_of_nat n ++ " file(s)...")) ;;
  modify (set_className "loading") ;;
  res <- fetch reply "/upload" formData ;;
  modify (log (log_status res)) ;;
  text <- eval (res_text res) ;;
  modify (log (log_raw text)) ;;
  (if negb (res_ok res) then throw (http_error res text) else ret tt) ;;
  data <- json_parse text ;;
  st <- eval (Get E data "status") ;;
  if strict_eq_string st "success" then
    modify (set_textContent "Upload successful!") ;;
    modify (set_className "success") ;;
    modify (set_selectedFiles []) ;;
    modify (set_fileListEl []) ;;
    modify (fun w => set_form (Form_reset (form w)) w)
  else
    m <- eval (Get E data "message") ;;
    shown_text <- eval (ToDOMString E (js_or m (JString "Upload failed"))) ;;
    modify (set_textContent shown_text) ;;
    modify (set_className "error").

(** Lines 58-59: the fields of the form, then one [files] entry per
    staged file. *)
Definition payload (fields : list (string * string)) (sel : list File) : FormData :=
  (map (fun kv => (fst kv, Field (snd kv))) fields
   ++ map (fun file => ("files", Blob file)) sel)%list.

(** The [submit] listener of the form, run to its end with the network's
    answer [reply] in hand: no other listener runs at its two awaits. *)
Definition submit (reply : NetReply) : Js Widget unit :=
  modify (set_textContent EmptyString) ;;
  modify (set_className EmptyString) ;;
  sel <- gets selectedFiles ;;
  if Nat.eqb (List.length sel) 0 then
    modify (set_textContent "Select at least one file") ;;
    modify (set_className "error")
  else
    fields <- gets (fun w => form_values (form w)) ;;
    try_catch (upload reply (payload fields sel)) on_error.

(** The events of the page, and the states they lead to. *)
Inductive reachable : Widget -> Prop :=
| reach_initial w : initial w -> reachable w
| reach_dragover w : reachable w -> reachable (on_dragover w)
| reach_dragleave w : reachable w -> reachable (on_dragleave w)
| reach_drop w files : reachable w -> reachable (on_drop files w)
| reach_change w files : reachable w -> reachable (on_change files w)
| reach_remove w li :
    reachable w -> In li (fileListEl w) -> reachable (remove_onclick li w)
| reach_submit w reply : reachable w -> reachable (snd (submit reply w)).
End Listeners.

End Assignment.

(* ================================================================== *)
(** * The second script (lines 94-165), posting to [/notes/upload] *)

Module Notes.

(** The state the closures share.  An [<li>] of this script carries only
    its text, the file's name. *)
Record Widget : Type := mkWidget {
  selectedFiles : list File;
  fileList : list string;           (* children of #fileList *)
  title : string;                   (* #title .value *)
  subject : string;                 (* #subject .value *)
  title_default : string;
  subject_default : string;
  fileInput_value : string;         (* #fileInput *)
  highlight : bool;                 (* #dropArea has class highlight *)
  trace : list Effect
}.

Definition set_selectedFiles (v : list File) (w : Widget) : Widget :=
  mkWidget v (fileList w) (title w) (subject w) (title_default w)
           (subject_default w) (fileInput_value w) (highlight w) (trace w).
Definition set_fileList (v : list string) (w : Widget) : Widget :=
  mkWidget (selectedFiles w) v (title w) (subject w) (title_default w)
           (subject_default w) (fileInput_value w) (highlight w) (trace w).
Definition set_fileInput_value (v : string) (w : Widget) : Widget :=
  mkWidget (selectedFiles w) (fileList w) (title w) (subject w) (title_default w)
           (subject_default w) v (highlight w) (trace w).
Definition set_highlight (v : bool) (w : Widget) : Widget :=
  mkWidget (selectedFiles w) (fileList w) (title w) (subject w) (title_default w)
           (subject_default w) (fileInput_value w) v (trace w).
Definition log (e : Effect) (w : Widget) : Widget :=
  mkWidget (selectedFiles w) (fileList w) (title w) (subject w) (title_default w)
           (subject_default w) (fileInput_value w) (highlight w) (trace w ++ [e]).

(** [form.reset()] *)
Definition form_reset (w : Widget) : Widget :=
  mkWidget (selectedFiles w) (fileList w) (title_default w) (subject_default w)
           (title_default w) (subject_default w) (fileInput_value w)
           (highlight w) (trace w).

Definition initial (w : Widget) : Prop :=
  selectedFiles w = [] /\ fileList w = [].

(** The body of the [for ... of] loop of [handleFiles], lines 125-130. *)
Definition handleFile (file : File) (w : Widget) : Widget :=
  set_fileList (fileList w ++ [name file])
    (set_selectedFiles (selectedFiles w ++ [file]) w).

(** [handleFiles(files)] *)
Definition handleFiles (files : list File) (w : Widget) : Widget :=
  fold_left (fun w file => handleFile file w) files w.

Definition on_dragover (w : Widget) : Widget := set_highlight true w.
Definition on_dragleave (w : Widget) : Widget := set_highlight false w.
Definition on_drop (files : list File) (w : Widget) : Widget :=
  handleFiles files (set_highlight false w).
Definition on_change (files : list File) (w : Widget) : Widget :=
  set_fileInput_value EmptyString (handleFiles files w).

Section Submit.
Variable E : Engine.

Definition fetch (reply : NetReply) (url : string) (body : FormData)
  : Js Widget Response :=
  modify (log (Fetch url "POST" body)) ;;
  eval (match reply with
        | Rejected e => Throw e
        | Responded r => Normal r
        end).

(** [await response.json()]: the body is read, then parsed. *)
Definition response_json (res : Response) : Js Widget JsValue :=
  text <- eval (res_text res) ;;
  modify (log (JsonParse text)) ;;
  eval (JSON_parse E text).

(** The two template literals of lines 159 and 162 have braces but no
    dollar sign: they are plain text, and nothing in them is evaluated. *)
Definition failed_text : string := "Error: {data.message || 'Upload failed'}".
Definition caught_text : string := "Error: {err.message}".

(** The [try] block, lines 144-160. *)
Definition upload (reply : NetReply) (formData : FormData) : Js Widget unit :=
  response <- fetch reply "/notes/upload" formData ;;
  data <- response_json response ;;
  st <- eval (Get E data "status") ;;
  if strict_eq_string st "success" then
    modify (log (Alert "Study materials uploaded successfully!")) ;;
    modify form_reset ;;
    modify (set_fileList []) ;;
    modify (set_selectedFiles [])
  else
    modify (log (Alert failed_text)).

(** Lines 136-142: the two fields, then one [files] entry per staged
    file. *)
Definition payload (t s : string) (sel : list File) : FormData :=
  ([("title", Field t); ("subject", Field s)]
   ++ map (fun file => ("files", Blob file)) sel)%list.

(** The [submit] listener of the form, run to its end with the network's
    answer [reply] in hand. *)
Definition submit (reply : NetReply) : Js Widget unit :=
  t <- gets title ;;
  s <- gets subject ;;
  sel <- gets selectedFiles ;;
  try_catch (upload reply (payload t s sel))
            (fun err => modify (log (Alert caught_text))).

(** The events of the page, and the states they lead to. *)
Inductive reachable : Widget -> Prop :=
| reach_initial w : initial w -> reachable w
| reach_dragover w : reachable w -> reachable (on_dragover w)
| reach_dragleave w : reachable w -> reachable (on_dragleave w)
| reach_drop w files : reachable w -> reachable (on_drop files w)
| reach_change w files : reachable w -> reachable (on_change files w)
| reach_submit w reply : reachable w -> reachable (snd (submit reply w)).
End Submit.

End Notes.

(* ================================================================== *)
(** * A sample engine

    The results below hold for every [Engine].  To run the handlers on
    concrete replies one engine is fixed here: a parser for JSON texts and
    the error texts of V8.  The parser reads objects, arrays, strings with
    the single-character escapes, [true], [false], [null] and integers of at
    most fifteen digits (a double holds them exactly, and prints them as
    written).  Numerals with a fraction or an exponent and [\u] escapes are
    outside it and are reported as syntax errors. *)

Module Sample.

Definition is_space (c : ascii) : bool :=
  let n := nat_of_ascii c in
  Nat.eqb n 32 || Nat.eqb n 9 || Nat.eqb n 10 || Nat.eqb n 13.

Definition is_digit (c : ascii) : bool :=
  let n := nat_of_ascii c in (48 <=? n)%nat && (n <=? 57)%nat.

Definition is_char (c : ascii) (code : nat) : bool := Nat.eqb (nat_of_ascii c) code.

Fixpoint skip_ws (s : string) : string :=
  match s with
  | String c rest => if is_space c then skip_ws rest else s
  | EmptyString => s
  end.

(** The character an escape [\e] stands for. *)
Definition unescape (e : ascii) : option ascii :=
  let n := nat_of_ascii e in
  if Nat.eqb n 34 || Nat.eqb n 92 || Nat.eqb n 47 then Some e
  else if Nat.eqb n 98 then Some (ascii_of_nat 8)
  else if Nat.eqb n 102 then Some (ascii_of_nat 12)
  else if Nat.eqb n 110 then Some (ascii_of_nat 10)
  else if Nat.eqb n 114 then Some (ascii_of_nat 13)
  else if Nat.eqb n 116 then Some (ascii_of_nat 9)
  else None.

(** The characters of a string literal, after its opening quote. *)
Fixpoint read_string (s : string) : option (string * string) :=
  match s with
  | EmptyString => None
  | String c rest =>
      if is_char c 34 then Some (EmptyString, rest)
      else if is_char c 92 then
        match rest with
        | String e rest' =>
            match unescape e, read_string rest' with
            | Some ch, Some (t, r) => Some (String ch t, r)
            | _, _ => None
            end
        | EmptyString => None
        end
      else if (nat_of_ascii c <? 32)%nat then None
      else
        match read_string rest with
        | Some (t, r) => Some (String c t, r)
        | None => None
        end
  end.

Fixpoint read_digits (s : string) : string * string :=
  match s with
  | String c rest =>
      if is_digit c then let (ds, r) := read_digits rest in (String c ds, r)
      else (EmptyString, s)
  | EmptyString => (EmptyString, s)
  end.

Definition read_number (s : string) : option (Number * string) :=
  let (negative, s1) :=
    match s with
    | String c r => if is_char c 45 then (true, r) else (false, s)
    | EmptyString => (false, s)
    end in
  let (ds, rest) := read_digits s1 in
  let zero := String.eqb ds "0" in
  let unsupported :=
    match rest with
    | String c _ => is_char c 46 || is_char c 101 || is_char c 69
    | EmptyString => false
    end in
  match ds with
  | EmptyString => None
  | String d more =>
      if (is_char d 48 && negb (String.eqb more EmptyString))
         || (15 <? String.length ds)%nat || unsupported
      then None
      else Some (mkNumber zero (if negative && negb zero then "-" ++ ds else ds), rest)
  end.

(** [CreateDataProperty]: a repeated key keeps its place and takes the
    later value. *)
Fixpoint define (k : string) (v : JsValue) (props : list (string * JsValue))
  : list (string * JsValue) :=
  match props with
  | [] => [(k, v)]
  | (k', v') :: rest =>
      if String.eqb k' k then (k, v) :: rest else (k', v') :: define k v rest
  end.

Definition drop (n : nat) (s : string) : string :=
  String.substring n (String.length s - n) s.

Fixpoint parse_value (fuel : nat) (s : string) {struct fuel} : option (JsValue * string) :=
  match fuel with
  | O => None
  | S fuel' =>
      match skip_ws s with
      | EmptyString => None
      | String c rest =>
          if is_char c 123 then
            match skip_ws rest with
            | String c1 r1 =>
                if is_char c1 125 then Some (JObject [], r1)
                else
                  (fix members (n : nat) (s : string) (acc : list (string * JsValue))
                       {struct n} : option (JsValue * string) :=
                     match n with
                     | O => None
                     | S n' =>
                         match skip_ws s with
                         | String q after_quote =>
                             if is_char q 34 then
                               match read_string after_quote with
                               | Some (k, after_key) =>
                                   match skip_ws after_key with
                                   | String colon after_colon =>
                                       if is_char colon 58 then
                                         match parse_value fuel' after_colon with
                                         | Some (v, after_value) =>
                                             match skip_ws after_value with
                                             | String sep more =>
                                                 if is_char sep 44
                                                 then members n' more (define k v acc)
                                                 else if is_char sep 125
                                                 then Some (JObject (define k v acc), more)
                                                 else None
                                             | EmptyString => None
                                             end
                                         | None => None
                                         end
                                       else None
                                   | EmptyString => None
                                   end
                               | None => None
                               end
                             else None
                         | EmptyString => None
                         end
                     end) fuel' rest []
            | EmptyString => None
            end
          else if is_char c 91 then
            match skip_ws rest with
            | String c1 r1 =>
                if is_char c1 93 then Some (JArray [], r1)
                else
                  (fix elements (n : nat) (s : string) (acc : list JsValue)
                       {struct n} : option (JsValue * string) :=
                     match n with
                     | O => None
                     | S n' =>
                         match parse_value fuel' s with
                         | Some (v, after_value) =>
                             match skip_ws after_value with
                             | String sep more =>
                                 if is_char sep 44
                                 then elements n' more (acc ++ [v])%list
                                 else if is_char sep 93
                                 then Some (JArray (acc ++ [v])%list, more)
                                 else None
                             | EmptyString => None
                             end
                         | None => None
                         end
                     end) fuel' rest []
            | EmptyString => None
            end
          else if is_char c 34 then
            match read_string rest with
            | Some (t, r) => Some (JString t, r)
            | None => None
            end
          else if String.prefix "true" (String c rest) then Some (JBool true, drop 3 rest)
          else if String.prefix "false" (String c rest) then Some (JBool false, drop 4 rest)
          else if String.prefix "null" (String c rest) then Some (JNull, drop 3 rest)
          else
            match read_number (String c rest) with
            | Some (n, r) => Some (JNumber n, r)
            | None => None
            end
      end
  end.

Definition parse (text : string) : Completion JsValue :=
  match parse_value (S (String.length text)) text with
  | Some (v, rest) =>
      match skip_ws rest with
      | EmptyString => Normal v
      | String _ _ => Throw (mkError "SyntaxError" "Unexpected non-whitespace character after JSON")
      end
  | None => Throw (mkError "SyntaxError" "Unexpected token in JSON")
  end.

(** [(size/1024/1024).toFixed(2)] for a size below 2^53: the quotient is
    a double without rounding, and [toFixed] rounds it half up. *)
Definition megabytes (size : N) : string :=
  let hundredths := ((200 * size + 1048576) / 2097152)%N in
  let cents := (hundredths mod 100)%N in
  string_of_N (hundredths / 100) ++ "."
  ++ (if (cents <? 10)%N then "0" else EmptyString) ++ string_of_N cents.

Fixpoint count_lt (html : string) : nat :=
  match html with
  | EmptyString => 0
  | String c rest => (if is_char c 60 then 1 else 0) + count_lt rest
  end.

(** A markup whose only [<] are those of the four tags of the template
    keeps its button.  This sample takes any other [<] as losing it: that is
    so for a name that opens a comment, and not for every name. *)
Definition keeps_button (html : string) : bool := Nat.eqb (count_lt html) 4.

Definition engine : Engine :=
  {| JSON_parse := parse;
     read_of_nullish_message := fun v p =>
       "Cannot read properties of "
       ++ (match v with JNull => "null" | _ => "undefined" end)
       ++ " (reading '" ++ p ++ "')";
     to_primitive_message := "Cannot convert object to primitive value";
     megabytes_toFixed2 := megabytes;
     has_remove_element := keeps_button;
     set_on_null_message := fun p =>
       "Cannot set properties of null (setting '" ++ p ++ "')" |}.

End Sample.

(* ================================================================== *)
(** * The selection as a list *)

(** The dedup key of a file. *)
Definition key (f : File) : string * N := (name f, size f).

(** Lines 31-32 on the variable alone: [selectedFiles] after one candidate
    went through [handleFiles], as a function of what it held before. *)
Definition stage (selection : list File) (file : File) : list File :=
  if existsb (fun f => Assignment.same_key f file) selection
  then selection
  else selection ++ [file].


(** In the specification's words: removal keyed on (name, size), where
    every entry with the key of [f] goes. *)
Definition remove_by_key (f : File) (selection : list File) : list File :=
  filter (fun g => negb (Assignment.same_key g f)) selection.

(** What ties the list on the page to the variable: the staged files have
    distinct keys, the items of the list are, in order, the staged files
    whose markup kept its button, each item is a node of its own, and
    [next_node] is above them all. *)
Definition consistent (E : Engine) (w : Assignment.Widget) : Prop :=
  NoDup (map key (Assignment.selectedFiles w)) /\
  map Assignment.li_file (Assignment.fileListEl w)
  = filter (Assignment.listable E) (Assignment.selectedFiles w) /\
  NoDup (map Assignment.li_node (Assignment.fileListEl w)) /\
  Forall (fun li => Assignment.li_node li < Assignment.next_node w)
         (Assignment.fileListEl w).



(* ================================================================== *)
(** * Sample data *)

Definition report_pdf : File := mkFile "report.pdf" 2048 1.
Definition notes_txt : File := mkFile "notes.txt" 512 2.
(** A second pick of a file named and sized like [report_pdf]. *)
Definition report_again : File := mkFile "report.pdf" 2048 3.

Definition assignment_blank : Assignment.Widget :=
  Assignment.mkWidget [] [] (Assignment.mkStatus EmptyString EmptyString)
    (mkForm [("title", "Essay")] [("title", EmptyString)]) EmptyString false 0 [].

Definition notes_blank : Notes.Widget :=
  Notes.mkWidget [] [] "Week 1" "Physics" EmptyString EmptyString EmptyString false [].

(** The page after the user picked two files. *)
Definition assignment_staged : Assignment.Widget :=
  Assignment.on_change Sample.engine [report_pdf; notes_txt] assignment_blank.

(** A file whose name opens an HTML comment. *)
Definition comment_txt : File := mkFile "<!--a.txt" 100 4.
(** A second pick of a file named and sized like [comment_txt]. *)
Definition comment_again : File := mkFile "<!--a.txt" 100 5.

(** A failure body with no [message], and one whose [message] is an
    object with a [toString] entry of its own. *)
Definition bare_error_body : string :=
  "{" ++ dq ++ "status" ++ dq ++ ":" ++ dq ++ "error" ++ dq ++ "}".

Definition odd_message_body : string :=
  "{" ++ dq ++ "status" ++ dq ++ ":" ++ dq ++ "error" ++ dq ++ ","
      ++ dq ++ "message" ++ dq ++ ":{" ++ dq ++ "toString" ++ dq ++ ":1}}".

Definition connection_refused : JsError := mkError "TypeError" "Failed to fetch".

Definition reply_with (status : N) (content_type body : string) : NetReply :=
  Responded (mkResponse status (Some content_type) (Normal body)).

(* ================================================================== *)
(** * Proof steps *)

(** Unfolds the statements of a handler. *)
Ltac unfold_js :=
  cbv [bind ret throw try_catch gets modify eval].

(** A term that tests nothing itself. *)
Ltac no_test_inside x :=
  lazymatch x with
  | context [match _ with _ => _ end] => fail
  | _ => idtac
  end.

(** Splits on every test a handler makes, innermost first. *)
Ltac split_tests :=
  repeat (simpl;
          match goal with
          | |- context [match ?x with _ => _ end] =>
              no_test_inside x; destruct x eqn:?
          end).

(** Opens the submit listener of the first script. *)
Ltac run_assignment_submit :=
  unfold Assignment.submit, Assignment.upload, Assignment.on_error,
         Assignment.fetch, Assignment.json_parse;
  unfold_js; simpl.

(* ================================================================== *)
(** * Properties *)

Open Scope list_scope.

(* ================================================================== *)
(** * Keys and identity *)

Lemma same_key_iff (f g : File) : Assignment.same_key f g = true <-> key f = key g.
Proof.
  unfold Assignment.same_key, key.
  rewrite andb_true_iff, String.eqb_eq, N.eqb_eq.
  split; [intros [-> ->]; reflexivity | intros H; inversion H; auto].
Qed.


Lemma File_eqb_iff (f g : File) : File_eqb f g = true <-> f = g.
Proof.
  unfold File_eqb. rewrite !andb_true_iff, String.eqb_eq, N.eqb_eq, Nat.eqb_eq.
  destruct f, g; simpl.
  split; [intros [[-> ->] ->]; reflexivity | intros H; inversion H; auto].
Qed.

Lemma File_eqb_same_key (f g : File) : File_eqb f g = true -> Assignment.same_key f g = true.
Proof. rewrite File_eqb_iff, same_key_iff. intros ->. reflexivity. Qed.

Lemma existsb_same_key_iff (file : File) (l : list File) :
  existsb (fun f => Assignment.same_key f file) l = true <-> In (key file) (map key l).
Proof.
  rewrite existsb_exists, in_map_iff.
  split; intros [x [H1 H2]]; exists x.
  - apply same_key_iff in H2. auto.
  - split; [tauto | apply same_key_iff; tauto].
Qed.

Lemma NoDup_snoc {A} (l : list A) (x : A) : NoDup l -> ~ In x l -> NoDup (l ++ [x]).
Proof.
  intros Hl Hx. apply NoDup_app; auto.
  - constructor; [intros [] | constructor].
  - intros a Ha [<- | []]. contradiction.
Qed.

Lemma NoDup_map_filter {A B} (keep : A -> bool) (key_of : A -> B) (entries : list A)
  (distinct : NoDup (map key_of entries)) :
  NoDup (map key_of (filter keep entries)).
Proof.
  induction entries as [|a l IH]; simpl; [constructor|].
  inversion distinct as [|? ? Hin Hnd]; subst.
  destruct (keep a); simpl; auto.
  constructor; auto.
  intros Hc. apply Hin.
  apply in_map_iff in Hc. destruct Hc as [x [Hx1 Hx2]].
  apply filter_In in Hx2. apply in_map_iff. exists x. tauto.
Qed.

Lemma NoDup_map_injective_on {A B} (f : A -> B) (l : list A) (a b : A) :
  NoDup (map f l) -> In a l -> In b l -> f a = f b -> a = b.
Proof.
  induction l as [|x l IH]; simpl; intros H Ha Hb Hf; [contradiction|].
  inversion H as [|? ? Hin Hnd]; subst.
  destruct Ha as [-> | Ha], Hb as [-> | Hb]; auto.
  - exfalso. apply Hin. rewrite Hf. apply in_map. assumption.
  - exfalso. apply Hin. rewrite <- Hf. apply in_map. assumption.
Qed.


Lemma filter_comm {A} (p q : A -> bool) (l : list A) :
  filter p (filter q l) = filter q (filter p l).
Proof.
  induction l as [|a l IH]; simpl; [reflexivity|].
  destruct (p a) eqn:Hp, (q a) eqn:Hq; simpl; rewrite ?Hp, ?Hq, IH; reflexivity.
Qed.

(* ================================================================== *)
(** * The list on the page follows the variable *)

Section AssignmentFacts.
Import Assignment.
Variable E : Engine.

Lemma handleFile_skip (file : File) (w : Widget) :
  existsb (fun f => same_key f file) (selectedFiles w) = true ->
  handleFile E file w = (Normal tt, w).
Proof. unfold handleFile. unfold_js. intros ->. reflexivity. Qed.

Lemma handleFile_push (file : File) (w : Widget) :
  existsb (fun f => same_key f file) (selectedFiles w) = false ->
  listable E file = true ->
  handleFile E file w =
  (Normal tt,
   set_fileListEl (fileListEl w ++ [mkLi (next_node w) file])
     (set_next_node (S (next_node w))
        (set_selectedFiles (selectedFiles w ++ [file]) w))).
Proof.
  unfold handleFile, createElement. unfold_js. intros -> Hl. simpl.
  rewrite Hl. reflexivity.
Qed.

(** Line 39 on a markup with no button: the file is in the variable, the
    node is made, and the item is not in the list. *)
Lemma handleFile_throw (file : File) (w : Widget) :
  existsb (fun f => same_key f file) (selectedFiles w) = false ->
  listable E file = false ->
  handleFile E file w =
  (Throw (mkError "TypeError" (set_on_null_message E "onclick")),
   set_next_node (S (next_node w))
     (set_selectedFiles (selectedFiles w ++ [file]) w)).
Proof.
  unfold handleFile, createElement. unfold_js. intros -> Hl. simpl.
  rewrite Hl. reflexivity.
Qed.

(** What holds of the page before every callback of a [forEach] holds of
    it after the loop, ended or cut short. *)
Lemma forEach_keeps {A} (P : Widget -> Prop) (callback : A -> Js Widget unit) :
  (forall item w, P w -> P (snd (callback item w))) ->
  forall items w, P w -> P (snd (forEach callback items w)).
Proof.
  intros Hstep. induction items as [|item items IH]; simpl; intros w H; [assumption|].
  unfold bind. specialize (Hstep item w H).
  destruct (callback item w) as [[[]|e] w']; simpl in *; auto.
Qed.

Lemma handleFile_consistent (file : File) (w : Widget) :
  consistent E w -> consistent E (snd (handleFile E file w)).
Proof.
  intros (Hk & Hli & Hn & Hlt).
  destruct (existsb (fun f => same_key f file) (selectedFiles w)) eqn:Hex.
  - rewrite handleFile_skip by assumption. repeat split; assumption.
  - assert (Hfresh : NoDup (map key (selectedFiles w ++ [file]))).
    { rewrite map_app. simpl. apply NoDup_snoc; [assumption|].
      rewrite <- existsb_same_key_iff. congruence. }
    destruct (listable E file) eqn:Hl.
    + rewrite handleFile_push by assumption.
      unfold consistent; simpl. repeat split.
      * assumption.
      * rewrite filter_app, map_app; simpl. rewrite Hl, Hli. reflexivity.
      * rewrite map_app; simpl. apply NoDup_snoc; [assumption|].
        intros Hin. apply in_map_iff in Hin. destruct Hin as [li [Heq Hin]].
        rewrite Forall_forall in Hlt. specialize (Hlt li Hin). lia.
      * apply Forall_app. split.
        -- eapply Forall_impl; [|exact Hlt]. simpl. intros; lia.
        -- constructor; [simpl; lia | constructor].
    + rewrite handleFile_throw by assumption.
      unfold consistent; simpl. rewrite filter_app; simpl. rewrite Hl, app_nil_r.
      repeat split; try assumption.
      eapply Forall_impl; [|exact Hlt]. simpl. intros; lia.
Qed.

Lemma handleFiles_consistent (files : list File) (w : Widget) :
  consistent E w -> consistent E (snd (handleFiles E files w)).
Proof.
  apply (forEach_keeps (consistent E)). intros file s. apply handleFile_consistent.
Qed.

(** The page after the picker's listener: the picker is emptied when
    [handleFiles] went through, and left alone when it threw. *)
Lemma on_change_cases (files : list File) (w : Widget) :
  (fst (handleFiles E files w) = Normal tt /\
   on_change E files w = set_fileInput_value EmptyString (snd (handleFiles E files w)))
  \/ ((exists e, fst (handleFiles E files w) = Throw e) /\
      on_change E files w = snd (handleFiles E files w)).
Proof.
  unfold on_change, change_listener. unfold_js.
  destruct (handleFiles E files w) as [[[]|e] w']; simpl; eauto.
Qed.

Lemma on_change_consistent (files : list File) (w : Widget) :
  consistent E w -> consistent E (on_change E files w).
Proof.
  intros H. apply (handleFiles_consistent files) in H.
  destruct (on_change_cases files w) as [[_ ->] | [_ ->]]; exact H.
Qed.

Lemma remove_onclick_consistent (li : Li) (w : Widget) :
  consistent E w -> In li (fileListEl w) -> consistent E (remove_onclick li w).
Proof.
  intros (Hk & Hli & Hn & Hlt) Hin.
  unfold consistent, remove_onclick, remove_by_identity; simpl.
  repeat split.
  - apply NoDup_map_filter. assumption.
  - rewrite filter_comm, <- Hli. rewrite filter_map_swap. f_equal.
    apply filter_ext_in. intros l Hl. f_equal.
    destruct (Nat.eqb (li_node l) (li_node li)) eqn:Hnode.
    + apply Nat.eqb_eq in Hnode.
      assert (l = li) by (eapply NoDup_map_injective_on; eauto).
      subst. symmetry. apply File_eqb_iff. reflexivity.
    + destruct (File_eqb (li_file l) (li_file li)) eqn:Hfile; [|reflexivity].
      apply File_eqb_iff in Hfile.
      assert (l = li).
      { apply (NoDup_map_injective_on (fun x => key (li_file x)) (fileListEl w)); auto.
        - rewrite <- (map_map li_file key), Hli. apply NoDup_map_filter. assumption.
        - rewrite Hfile. reflexivity. }
      subst. rewrite Nat.eqb_refl in Hnode. discriminate.
  - apply NoDup_map_filter. assumption.
  - rewrite Forall_forall in *. intros x Hx. apply filter_In in Hx. apply Hlt. tauto.
Qed.

End AssignmentFacts.

Section AssignmentSubmit.
Import Assignment.
Variable E : Engine.

Lemma submit_empty (reply : NetReply) (w : Widget) :
  selectedFiles w = [] ->
  submit E reply w =
  (Normal tt, set_className "error" (set_textContent "Select at least one file"
                (set_className EmptyString (set_textContent EmptyString w)))).
Proof.
  intros H. unfold submit. unfold_js. simpl. rewrite H. reflexivity.
Qed.

Lemma submit_frame (reply : NetReply) (w : Widget) :
  let w' := snd (submit E reply w) in
  next_node w' = next_node w /\
  ((selectedFiles w' = selectedFiles w /\ fileListEl w' = fileListEl w) \/
   (selectedFiles w' = [] /\ fileListEl w' = [])).
Proof.
  unfold submit, upload, on_error, fetch, json_parse. unfold_js.
  split_tests; simpl; auto.
Qed.

Lemma submit_consistent (reply : NetReply) (w : Widget) :
  consistent E w -> consistent E (snd (submit E reply w)).
Proof.
  intros (Hk & Hli & Hn & Hlt).
  destruct (submit_frame reply w) as [Hnext [[Hs Hl] | [Hs Hl]]];
    unfold consistent; rewrite Hs, Hl, ?Hnext; simpl; repeat split;
    auto; constructor.
Qed.

Lemma reachable_consistent (w : Widget) : reachable E w -> consistent E w.
Proof.
  induction 1 as [w [Hs Hl] | | | | | | ].
  - unfold consistent. rewrite Hs, Hl. simpl. repeat split; constructor.
  - exact IHreachable.
  - exact IHreachable.
  - apply handleFiles_consistent. exact IHreachable.
  - apply on_change_consistent. exact IHreachable.
  - apply remove_onclick_consistent; assumption.
  - apply submit_consistent. assumption.
Qed.

End AssignmentSubmit.

(* ================================================================== *)
(** * First seen wins *)






Section AssignmentStaging.
Import Assignment.
Variable E : Engine.

Lemma handleFile_stage (file : File) (w : Widget) :
  selectedFiles (snd (handleFile E file w)) = stage (selectedFiles w) file.
Proof.
  unfold stage.
  destruct (existsb (fun f => same_key f file) (selectedFiles w)) eqn:Hex.
  - rewrite handleFile_skip by assumption. reflexivity.
  - destruct (listable E file) eqn:Hl.
    + rewrite handleFile_push by assumption. reflexivity.
    + rewrite handleFile_throw by assumption. reflexivity.
Qed.


(** [handleFiles] stages the files it gets to, a first part of the batch,
    and that is the whole batch when it ends without a throw. *)
Lemma handleFiles_taken (files : list File) (w : Widget) :
  exists taken rest,
    files = taken ++ rest /\
    selectedFiles (snd (handleFiles E files w))
    = fold_left stage taken (selectedFiles w) /\
    (fst (handleFiles E files w) = Normal tt -> rest = []).
Proof.
  unfold handleFiles. revert w.
  induction files as [|c files IH]; simpl; intros w.
  - exists [], []. auto.
  - unfold bind. pose proof (handleFile_stage c w) as Hc.
    destruct (handleFile E c w) as [[[]|e] w']; simpl in Hc.
    + destruct (IH w') as (taken & rest & Hsplit & Hsel & Hend).
      exists (c :: taken), rest. simpl. rewrite <- Hc. subst files. auto.
    + exists [c], files. simpl. rewrite Hc.
      split; [reflexivity|]. split; [reflexivity | discriminate].
Qed.


Lemma handleFiles_single (file : File) (w : Widget) :
  selectedFiles (snd (handleFiles E [file] w)) = stage (selectedFiles w) file.
Proof.
  unfold handleFiles; simpl. unfold bind. pose proof (handleFile_stage file w) as Hs.
  destruct (handleFile E file w) as [[[]|e] w']; simpl in *; assumption.
Qed.




End AssignmentStaging.

Section AssignmentClaims.
Import Assignment.



(** C8.  In a state the page can be in, for every staged file [f] and
    every file [f'] of the same name and size: once line 40 has filtered [f]
    out of the variable, handing [f'] to [handleFiles] stages it; and that
    is what clicking the remove button of an item of [f] and then handing
    [f'] over does. *)
Theorem remove_then_add_again (E : Engine) (w : Widget) (f f' : File) :
  reachable E w ->
  In f (selectedFiles w) ->
  key f' = key f ->
  In f' (selectedFiles
           (snd (handleFiles E [f']
                   (set_selectedFiles (remove_by_identity f (selectedFiles w)) w))))
  /\ (forall li,
        In li (fileListEl w) -> li_file li = f ->
        In f' (selectedFiles (snd (handleFiles E [f'] (remove_onclick li w))))).
Proof.
  intros Hr Hin Hkey.
  apply (reachable_consistent E) in Hr. destruct Hr as (Hk & _).
  assert (Hgone : existsb (fun g => same_key g f')
                          (remove_by_identity f (selectedFiles w)) = false).
  { apply not_true_is_false. rewrite existsb_same_key_iff.
    intros Hc. apply in_map_iff in Hc. destruct Hc as [g [Hg1 Hg2]].
    unfold remove_by_identity in Hg2.
    apply filter_In in Hg2. destruct Hg2 as [Hg2 Hne].
    assert (g = f).
    { apply (NoDup_map_injective_on key (selectedFiles w)); auto. congruence. }
    subst g. rewrite (proj2 (File_eqb_iff f f) eq_refl) in Hne. discriminate. }
  assert (Hstaged : In f' (stage (remove_by_identity f (selectedFiles w)) f')).
  { unfold stage. rewrite Hgone. apply in_or_app. right. left. reflexivity. }
  split.
  - rewrite handleFiles_single. exact Hstaged.
  - intros li _ Hf. rewrite handleFiles_single. simpl. rewrite Hf. exact Hstaged.
Qed.

Lemma remove_then_add_again_witness :
  In report_again
     (selectedFiles
        (snd (handleFiles Sample.engine [report_again]
                (remove_onclick (mkLi 0 report_pdf) assignment_staged)))).
Proof.
  destruct (remove_then_add_again Sample.engine assignment_staged report_pdf report_again)
    as [_ H].
  - apply reach_change, reach_initial. split; reflexivity.
  - simpl. auto.
  - reflexivity.
  - apply (H (mkLi 0 report_pdf)); [simpl; auto | reflexivity].
Defined.

(** C10.  In a state the page can be in, for a staged file [f], the
    filter of line 40 (drop the entry that is [f] itself) and a filter on
    the dedup key (drop every entry named and sized like [f]) leave the same
    list. *)
Theorem remove_by_identity_is_by_key (E : Engine) (w : Widget) (f : File) :
  reachable E w ->
  In f (selectedFiles w) ->
  remove_by_identity f (selectedFiles w) = remove_by_key f (selectedFiles w).
Proof.
  intros Hr Hin.
  apply (reachable_consistent E) in Hr. destruct Hr as (Hk & _).
  unfold remove_by_identity, remove_by_key.
  apply filter_ext_in. intros g Hg. f_equal.
  destruct (File_eqb g f) eqn:Hid.
  - symmetry. apply File_eqb_same_key. assumption.
  - destruct (same_key g f) eqn:Hkey; [|reflexivity].
    apply same_key_iff in Hkey.
    assert (g = f) by (eapply NoDup_map_injective_on; eauto).
    subst g. rewrite (proj2 (File_eqb_iff f f) eq_refl) in Hid. discriminate.
Qed.

Lemma remove_by_identity_is_by_key_witness :
  remove_by_identity report_pdf (selectedFiles assignment_staged)
  = remove_by_key report_pdf (selectedFiles assignment_staged).
Proof.
  apply (remove_by_identity_is_by_key Sample.engine).
  - apply reach_change, reach_initial. split; reflexivity.
  - simpl. auto.
Defined.

End AssignmentClaims.

Section AssignmentOutcomes.
Import Assignment.
Variable E : Engine.

(** What the listener does when the send is rejected. *)
Lemma submit_rejected (err : JsError) (w : Widget) :
  selectedFiles w <> [] ->
  let out := submit E (Rejected err) w in
  fst out = Normal tt
  /\ status (snd out) = mkStatus (error_text (err_message err)) "error"
  /\ selectedFiles (snd out) = selectedFiles w
  /\ fileListEl (snd out) = fileListEl w
  /\ form (snd out) = form w
  /\ trace (snd out)
     = trace w ++ [Fetch "/upload" "POST" (payload (form_values (form w)) (selectedFiles w));
                   ConsoleError err].
Proof.
  intros Hsel. run_assignment_submit.
  destruct (selectedFiles w) eqn:Hs; [congruence|]. simpl.
  rewrite Hs, <- app_assoc. simpl. repeat split; reflexivity.
Qed.

(** What the listener does with a response whose status is not 2xx. *)
Lemma submit_not_ok (r : Response) (text : string) (w : Widget) :
  selectedFiles w <> [] ->
  res_ok r = false ->
  res_text r = Normal text ->
  let out := submit E (Responded r) w in
  fst out = Normal tt
  /\ status (snd out) = mkStatus (error_text (err_message (http_error r text))) "error"
  /\ selectedFiles (snd out) = selectedFiles w
  /\ fileListEl (snd out) = fileListEl w
  /\ form (snd out) = form w
  /\ trace (snd out)
     = trace w ++ [Fetch "/upload" "POST" (payload (form_values (form w)) (selectedFiles w));
                   log_status r; log_raw text; ConsoleError (http_error r text)].
Proof.
  intros Hsel Hok Htext. run_assignment_submit.
  destruct (selectedFiles w) eqn:Hs; [congruence|]. simpl.
  rewrite Htext, Hok. simpl.
  rewrite Hs, <- !app_assoc. simpl. repeat split; reflexivity.
Qed.

(** What the listener does with a 2xx response whose body does not parse. *)
Lemma submit_unparseable (r : Response) (text : string) (err : JsError) (w : Widget) :
  selectedFiles w <> [] ->
  res_ok r = true ->
  res_text r = Normal text ->
  JSON_parse E text = Throw err ->
  let out := submit E (Responded r) w in
  fst out = Normal tt
  /\ status (snd out) = mkStatus (error_text (err_message err)) "error"
  /\ selectedFiles (snd out) = selectedFiles w
  /\ fileListEl (snd out) = fileListEl w.
Proof.
  intros Hsel Hok Htext Hparse. run_assignment_submit.
  destruct (selectedFiles w) eqn:Hs; [congruence|]. simpl.
  rewrite Htext, Hok. simpl. rewrite Hparse. simpl.
  rewrite Hs. repeat split; reflexivity.
Qed.

End AssignmentOutcomes.

Section NotesOutcomes.
Import Notes.
Variable E : Engine.

Lemma notes_submit_success (r : Response) (text : string) (data : JsValue) (w : Widget) :
  res_text r = Normal text ->
  JSON_parse E text = Normal data ->
  Get E data "status" = Normal (JString "success") ->
  let out := submit E (Responded r) w in
  fst out = Normal tt
  /\ selectedFiles (snd out) = []
  /\ fileList (snd out) = []
  /\ title (snd out) = title_default w
  /\ subject (snd out) = subject_default w
  /\ trace (snd out)
     = trace w ++ [Fetch "/notes/upload" "POST" (payload (title w) (subject w) (selectedFiles w));
                   JsonParse text;
                   Alert "Study materials uploaded successfully!"].
Proof.
  intros Htext Hparse Hstatus.
  unfold submit, upload, fetch, response_json. unfold_js. simpl.
  rewrite Htext. simpl. rewrite Hparse, Hstatus. simpl.
  rewrite <- !app_assoc. simpl. repeat split; reflexivity.
Qed.

Lemma notes_submit_completes (reply : NetReply) (w : Widget) :
  let out := submit E reply w in
  fst out = Normal tt
  /\ exists calls message, trace (snd out) = trace w ++ calls ++ [Alert message].
Proof.
  unfold submit, upload, fetch, response_json. unfold_js.
  split_tests; simpl; (split; [reflexivity|]); rewrite <- ?app_assoc; simpl;
    match goal with
    | |- exists calls message, _ ++ ?l = _ =>
        exists (removelast l); simpl; eexists; reflexivity
    end.
Qed.

Lemma notes_handleFiles_appends (files : list File) (w : Widget) :
  selectedFiles (handleFiles files w) = selectedFiles w ++ files.
Proof.
  unfold handleFiles. revert w.
  induction files as [|f files IH]; simpl; intros w.
  - rewrite app_nil_r. reflexivity.
  - rewrite IH. simpl. rewrite <- app_assoc. reflexivity.
Qed.

End NotesOutcomes.


(** C2 (as amended).  In [load-assignment/script.js], a submit while
    nothing is staged ends normally with the status element showing
    [Select at least one file] in class [error]; the listener has called
    nothing on the platform, so no request went out, and the staged files
    and their list are as they were. *)
Theorem assignment_submit_empty (E : Engine) (reply : NetReply) (w : Assignment.Widget) :
  Assignment.selectedFiles w = [] ->
  let out := Assignment.submit E reply w in
  fst out = Normal tt
  /\ Assignment.status (snd out) = Assignment.mkStatus "Select at least one file" "error"
  /\ Assignment.trace (snd out) = Assignment.trace w
  /\ requests (Assignment.trace (snd out)) = requests (Assignment.trace w)
  /\ Assignment.selectedFiles (snd out) = Assignment.selectedFiles w
  /\ Assignment.fileListEl (snd out) = Assignment.fileListEl w.
Proof.
  intros H. cbv zeta. rewrite (submit_empty E reply w H). simpl.
  repeat split; reflexivity.
Qed.

Lemma assignment_submit_empty_witness :
  Assignment.status
    (snd (Assignment.submit Sample.engine (Rejected connection_refused) assignment_blank))
  = Assignment.mkStatus "Select at least one file" "error".
Proof.
  apply (assignment_submit_empty Sample.engine (Rejected connection_refused)
           assignment_blank).
  reflexivity.
Defined.

(** C3.  A response with a 2xx status whose body parses to data with
    [status] equal to [success]: the first script, with files staged, shows
    [Upload successful!] in class [success], empties the variable and the
    list and resets the form; the second script announces the success,
    empties the variable and the list and resets its fields. *)
Theorem submit_success
  (E : Engine) (r : Response) (text : string) (data : JsValue)
  (w1 : Assignment.Widget) (w2 : Notes.Widget) :
  res_ok r = true ->
  res_text r = Normal text ->
  JSON_parse E text = Normal data ->
  Get E data "status" = Normal (JString "success") ->
  Assignment.selectedFiles w1 <> [] ->
  let out1 := Assignment.submit E (Responded r) w1 in
  let out2 := Notes.submit E (Responded r) w2 in
  (fst out1 = Normal tt
   /\ Assignment.status (snd out1) = Assignment.mkStatus "Upload successful!" "success"
   /\ Assignment.selectedFiles (snd out1) = []
   /\ Assignment.fileListEl (snd out1) = []
   /\ Assignment.form (snd out1) = Form_reset (Assignment.form w1))
  /\
  (fst out2 = Normal tt
   /\ In (Alert "Study materials uploaded successfully!") (Notes.trace (snd out2))
   /\ Notes.selectedFiles (snd out2) = []
   /\ Notes.fileList (snd out2) = []
   /\ Notes.title (snd out2) = Notes.title_default w2
   /\ Notes.subject (snd out2) = Notes.subject_default w2).
Proof.
  intros Hok Htext Hparse Hstatus Hsel. cbv zeta. split.
  - unfold Assignment.submit, Assignment.upload, Assignment.fetch, Assignment.json_parse.
    unfold_js. simpl.
    destruct (Assignment.selectedFiles w1) eqn:Hs; [congruence|]. simpl.
    rewrite Htext, Hok. simpl. rewrite Hparse, Hstatus. simpl.
    repeat split; reflexivity.
  - destruct (notes_submit_success E r text data w2 Htext Hparse Hstatus)
      as (H1 & H2 & H3 & H4 & H5 & H6).
    repeat split; try assumption.
    rewrite H6. apply in_or_app. right. simpl. auto.
Qed.

Lemma submit_success_witness :
  Assignment.selectedFiles
    (snd (Assignment.submit Sample.engine
            (reply_with 200 "application/json" success_body) assignment_staged)) = []
  /\ Notes.selectedFiles
       (snd (Notes.submit Sample.engine
               (reply_with 200 "application/json" success_body)
               (Notes.on_drop [report_pdf] notes_blank))) = [].
Proof.
  destruct (submit_success Sample.engine
              (mkResponse 200 (Some "application/json") (Normal success_body))
              success_body (JObject [("status", JString "success")])
              assignment_staged (Notes.on_drop [report_pdf] notes_blank))
    as [(_ & _ & H1 & _) (_ & _ & H2 & _)];
    try reflexivity.
  - discriminate.
  - split; assumption.
Defined.

Section AssignmentCompletes.
Import Assignment.
Variable E : Engine.

Lemma assignment_submit_completes (reply : NetReply) (w : Widget) :
  let out := submit E reply w in
  fst out = Normal tt
  /\ (className (status (snd out)) = "error" \/ className (status (snd out)) = "success").
Proof.
  unfold submit, upload, on_error, fetch, json_parse. unfold_js.
  split_tests; simpl; auto.
Qed.

End AssignmentCompletes.


(** C2, counterexample.  The second script, with nothing staged, sends
    the request all the same and goes on to read the answer. *)
Lemma notes_submit_empty_sends :
  Notes.selectedFiles notes_blank = []
  /\ Notes.trace
       (snd (Notes.submit Sample.engine
               (reply_with 200 "application/json" success_body) notes_blank))
     = [Fetch "/notes/upload" "POST" [("title", Field "Week 1"); ("subject", Field "Physics")];
        JsonParse success_body;
        Alert "Study materials uploaded successfully!"].
Proof. split; reflexivity. Qed.

(** C4 (as amended).  A response whose status is not 2xx and whose body
    would parse: the listener does not parse it and reads no field of it.
    It ends normally with the status element in class [error] showing
    [HTTP <status>: <body>], or [Server response invalid] when that text
    contains [JSON]; the staged files are as they were. *)
Theorem not_ok_shows_http_status
  (E : Engine) (r : Response) (text : string) (data : JsValue) (w : Assignment.Widget) :
  Assignment.selectedFiles w <> [] ->
  res_ok r = false ->
  res_text r = Normal text ->
  JSON_parse E text = Normal data ->
  let out := Assignment.submit E (Responded r) w in
  fst out = Normal tt
  /\ Assignment.status (snd out)
     = Assignment.mkStatus
         (Assignment.error_text ("HTTP " ++ string_of_N (res_status r) ++ ": " ++ text)%string)
         "error"
  /\ parses (Assignment.trace (snd out)) = parses (Assignment.trace w)
  /\ Assignment.selectedFiles (snd out) = Assignment.selectedFiles w.
Proof.
  intros Hsel Hok Htext _.
  destruct (submit_not_ok E r text w Hsel Hok Htext) as (H1 & H2 & H3 & _ & _ & H6).
  cbv zeta. repeat split; try assumption.
  rewrite H6. unfold parses. rewrite filter_app. simpl. apply app_nil_r.
Qed.

Lemma not_ok_shows_http_status_witness :
  Assignment.status
    (snd (Assignment.submit Sample.engine
            (reply_with 500 "application/json" too_large_body) assignment_staged))
  = Assignment.mkStatus ("HTTP 500: " ++ too_large_body)%string "error".
Proof.
  apply (not_ok_shows_http_status Sample.engine
           (mkResponse 500 (Some "application/json") (Normal too_large_body))
           too_large_body too_large_data assignment_staged).
  - discriminate.
  - reflexivity.
  - reflexivity.
  - reflexivity.
Defined.

(** C4, counterexample.  Status 500 with the body whose [message] is
    [too large]: the body parses and has the field, and the status element
    shows the HTTP text, not the field. *)
Lemma not_ok_ignores_message :
  JSON_parse Sample.engine too_large_body = Normal too_large_data
  /\ Get Sample.engine too_large_data "message" = Normal (JString "too large")
  /\ Assignment.textContent
       (Assignment.status
          (snd (Assignment.submit Sample.engine
                  (reply_with 500 "application/json" too_large_body) assignment_staged)))
     = ("HTTP 500: " ++ too_large_body)%string
  /\ ("HTTP 500: " ++ too_large_body)%string <> "too large".
Proof. repeat split; try reflexivity. discriminate. Qed.

(** C5 (as amended).  Status 500 with a body that does not parse: the
    body is not parsed and no field of it is read; the listener ends
    normally with the status element in class [error] showing
    [HTTP 500: <body>], or [Server response invalid] when that text contains
    [JSON].  The same body under a 2xx status is parsed, and when the
    engine's syntax error mentions [JSON] the status element shows
    [Server response invalid]. *)
Theorem status_500_unparseable
  (E : Engine) (r : Response) (text : string) (err : JsError) (w : Assignment.Widget) :
  Assignment.selectedFiles w <> [] ->
  res_status r = 500%N ->
  res_text r = Normal text ->
  JSON_parse E text = Throw err ->
  let out := Assignment.submit E (Responded r) w in
  (fst out = Normal tt
   /\ Assignment.status (snd out)
      = Assignment.mkStatus (Assignment.error_text ("HTTP 500: " ++ text)%string) "error"
   /\ parses (Assignment.trace (snd out)) = parses (Assignment.trace w)
   /\ Assignment.selectedFiles (snd out) = Assignment.selectedFiles w)
  /\ (forall r' : Response,
        res_ok r' = true ->
        res_text r' = Normal text ->
        includes (err_message err) "JSON" = true ->
        Assignment.status (snd (Assignment.submit E (Responded r') w))
        = Assignment.mkStatus "Server response invalid" "error").
Proof.
  intros Hsel Hstatus Htext Hparse. cbv zeta. split.
  - assert (Hok : res_ok r = false) by (unfold res_ok; rewrite Hstatus; reflexivity).
    destruct (submit_not_ok E r text w Hsel Hok Htext) as (H1 & H2 & H3 & _ & _ & H6).
    unfold Assignment.http_error in H2. simpl in H2. rewrite Hstatus in H2.
    repeat split; try assumption.
    rewrite H6. unfold parses. rewrite filter_app. simpl. apply app_nil_r.
  - intros r' Hok' Htext' Hjson.
    destruct (submit_unparseable E r' text err w Hsel Hok' Htext' Hparse) as (_ & H2 & _).
    rewrite H2. unfold Assignment.error_text. rewrite Hjson. reflexivity.
Qed.

Lemma status_500_unparseable_witness :
  Assignment.status
    (snd (Assignment.submit Sample.engine
            (reply_with 500 "text/plain" "Internal Server Error") assignment_staged))
  = Assignment.mkStatus "HTTP 500: Internal Server Error" "error".
Proof.
  apply (status_500_unparseable Sample.engine
           (mkResponse 500 (Some "text/plain") (Normal "Internal Server Error"))
           "Internal Server Error"
           (mkError "SyntaxError" "Unexpected token in JSON") assignment_staged).
  - discriminate.
  - reflexivity.
  - reflexivity.
  - reflexivity.
Defined.

(** C5, counterexample.  Status 500 with a plain-text body: the body is
    no JSON, and the status element shows the HTTP text. *)
Lemma status_500_plain_text :
  JSON_parse Sample.engine "Internal Server Error"
  = Throw (mkError "SyntaxError" "Unexpected token in JSON")
  /\ Assignment.status
       (snd (Assignment.submit Sample.engine
               (reply_with 500 "text/plain" "Internal Server Error") assignment_staged))
     = Assignment.mkStatus "HTTP 500: Internal Server Error" "error"
  /\ "HTTP 500: Internal Server Error" <> "Server response invalid".
Proof. repeat split; try reflexivity. discriminate. Qed.

(** C6.  Status 200 with the body whose [status] is [error] and whose
    [message] is [too large], on an engine that parses it to that object:
    the listener ends normally with the status element in class [error]
    showing [too large], and the staged files and their list are as they
    were. *)
Theorem error_payload_keeps_selection
  (E : Engine) (r : Response) (w : Assignment.Widget) :
  Assignment.selectedFiles w <> [] ->
  res_status r = 200%N ->
  res_text r = Normal too_large_body ->
  JSON_parse E too_large_body = Normal too_large_data ->
  let out := Assignment.submit E (Responded r) w in
  fst out = Normal tt
  /\ Assignment.status (snd out) = Assignment.mkStatus "too large" "error"
  /\ Assignment.selectedFiles (snd out) = Assignment.selectedFiles w
  /\ Assignment.fileListEl (snd out) = Assignment.fileListEl w.
Proof.
  intros Hsel Hstatus Htext Hparse. cbv zeta.
  unfold Assignment.submit, Assignment.upload, Assignment.fetch, Assignment.json_parse.
  unfold_js. simpl.
  destruct (Assignment.selectedFiles w) eqn:Hs; [congruence|]. simpl.
  rewrite Htext. unfold res_ok. rewrite Hstatus. simpl. rewrite Hparse. simpl.
  rewrite Hs. repeat split; reflexivity.
Qed.

Lemma error_payload_keeps_selection_witness :
  Assignment.status
    (snd (Assignment.submit Sample.engine
            (reply_with 200 "application/json" too_large_body) assignment_staged))
  = Assignment.mkStatus "too large" "error"
  /\ Assignment.selectedFiles
       (snd (Assignment.submit Sample.engine
               (reply_with 200 "application/json" too_large_body) assignment_staged))
     = [report_pdf; notes_txt].
Proof.
  destruct (error_payload_keeps_selection Sample.engine
              (mkResponse 200 (Some "application/json") (Normal too_large_body))
              assignment_staged)
    as (_ & H2 & H3 & _); try reflexivity.
  - discriminate.
  - split; assumption.
Defined.

(** C7.  The send is rejected before any response, with the failure's
    message (the browser's text for a failed fetch, which does not mention
    JSON): nothing is parsed, the error is logged, the listener ends
    normally with the status element in class [error] showing the failure's
    message, and the staged files and their list are as they were. *)
Theorem transport_failure
  (E : Engine) (err : JsError) (w : Assignment.Widget) :
  Assignment.selectedFiles w <> [] ->
  includes (err_message err) "JSON" = false ->
  let out := Assignment.submit E (Rejected err) w in
  fst out = Normal tt
  /\ Assignment.status (snd out) = Assignment.mkStatus (err_message err) "error"
  /\ In (ConsoleError err) (Assignment.trace (snd out))
  /\ parses (Assignment.trace (snd out)) = parses (Assignment.trace w)
  /\ Assignment.selectedFiles (snd out) = Assignment.selectedFiles w
  /\ Assignment.fileListEl (snd out) = Assignment.fileListEl w.
Proof.
  intros Hsel Hplain.
  destruct (submit_rejected E err w Hsel) as (H1 & H2 & H3 & H4 & _ & H6).
  cbv zeta. repeat split; try assumption.
  - rewrite H2. unfold Assignment.error_text. rewrite Hplain. reflexivity.
  - rewrite H6. apply in_or_app. right. simpl. auto.
  - rewrite H6. unfold parses. rewrite filter_app. simpl. apply app_nil_r.
Qed.

Lemma transport_failure_witness :
  Assignment.status
    (snd (Assignment.submit Sample.engine (Rejected connection_refused) assignment_staged))
  = Assignment.mkStatus "Failed to fetch" "error".
Proof.
  destruct (transport_failure Sample.engine connection_refused assignment_staged)
    as (_ & H & _).
  - discriminate.
  - reflexivity.
  - exact H.
Defined.

(** C9.  Whatever the network answers (a rejection, or a response of any
    status whose body reads or not, parses or not, to any value), both
    listeners end normally: no exception leaves them.  The first ends with
    the status element in class [error] or [success]; the second ends
    having shown an alert. *)
Theorem submit_never_throws
  (E : Engine) (reply : NetReply) (w1 : Assignment.Widget) (w2 : Notes.Widget) :
  (fst (Assignment.submit E reply w1) = Normal tt
   /\ (Assignment.className (Assignment.status (snd (Assignment.submit E reply w1))) = "error"
       \/ Assignment.className (Assignment.status (snd (Assignment.submit E reply w1)))
          = "success"))
  /\
  (fst (Notes.submit E reply w2) = Normal tt
   /\ exists calls message,
        Notes.trace (snd (Notes.submit E reply w2))
        = Notes.trace w2 ++ calls ++ [Alert message]).
Proof.
  split.
  - apply assignment_submit_completes.
  - apply notes_submit_completes.
Qed.

(* ================================================================== *)
(** * More on staging and removing *)

Lemma stage_grows (selection : list File) (file : File) :
  exists added,
    stage selection file = selection ++ added /\ incl added [file] /\
    existsb (fun f => Assignment.same_key f file) (stage selection file) = true.
Proof.
  unfold stage.
  destruct (existsb (fun f => Assignment.same_key f file) selection) eqn:Hex.
  - exists []. rewrite app_nil_r. repeat split; auto. intros x [].
  - exists [file]. repeat split.
    + apply incl_refl.
    + rewrite existsb_app. simpl.
      rewrite (proj2 (same_key_iff file file) eq_refl). apply orb_true_iff. auto.
Qed.

Lemma stage_fold_grows (files selection : list File) :
  exists added,
    fold_left stage files selection = selection ++ added /\
    incl added files /\
    forall f, In f files ->
      existsb (fun g => Assignment.same_key g f) (fold_left stage files selection) = true.
Proof.
  revert selection.
  induction files as [|c files IH]; simpl; intros selection.
  - exists []. rewrite app_nil_r. repeat split; [apply incl_refl | intros f []].
  - destruct (stage_grows selection c) as (a1 & H1 & Hi1 & Hc).
    destruct (IH (stage selection c)) as (a2 & H2 & Hi2 & Hall).
    exists (a1 ++ a2). repeat split.
    + rewrite H2, H1, app_assoc. reflexivity.
    + apply incl_app.
      * intros x Hx. apply Hi1 in Hx. destruct Hx as [<- | []]. left. reflexivity.
      * apply incl_tl. assumption.
    + intros f [<- | Hf]; [|apply Hall; assumption].
      rewrite H2, existsb_app, Hc. reflexivity.
Qed.


Section AssignmentStagingMore.
Import Assignment.
Variable E : Engine.

Lemma handleFiles_all_staged (files : list File) (w : Widget) :
  (forall f, In f files ->
     existsb (fun g => same_key g f) (selectedFiles w) = true) ->
  handleFiles E files w = (Normal tt, w).
Proof.
  unfold handleFiles. induction files as [|c files IH]; simpl; intros H; [reflexivity|].
  unfold bind. rewrite handleFile_skip by (apply H; auto). apply IH. auto.
Qed.



End AssignmentStagingMore.

(** X1.  A batch that [handleFiles] went through without a throw is
    skipped whole when handed over again: every file of it, or one named
    and sized like it, is staged, and the second pass changes nothing. *)
Theorem handleFiles_twice (E : Engine) (files : list File) (w : Assignment.Widget) :
  fst (Assignment.handleFiles E files w) = Normal tt ->
  Assignment.handleFiles E files (snd (Assignment.handleFiles E files w))
  = (Normal tt, snd (Assignment.handleFiles E files w)).
Proof.
  intros Hdone. apply handleFiles_all_staged.
  destruct (handleFiles_taken E files w) as (taken & rest & Hsplit & Hsel & Hend).
  rewrite (Hend Hdone), app_nil_r in Hsplit. subst taken.
  destruct (stage_fold_grows files (Assignment.selectedFiles w)) as (_ & _ & _ & H).
  rewrite Hsel. exact H.
Qed.

Lemma handleFiles_twice_witness :
  Assignment.handleFiles Sample.engine [report_pdf; report_again; notes_txt]
    (snd (Assignment.handleFiles Sample.engine [report_pdf; report_again; notes_txt]
            assignment_blank))
  = (Normal tt,
     snd (Assignment.handleFiles Sample.engine [report_pdf; report_again; notes_txt]
            assignment_blank)).
Proof.
  apply (handleFiles_twice Sample.engine [report_pdf; report_again; notes_txt]
           assignment_blank).
  reflexivity.
Defined.

(** X2.  [handleFiles] only adds at the end: what was staged stays in
    place and what is added comes from the batch, whether the loop ends or
    is cut short by a throw.  When it ends without a throw, every file of
    the batch has a staged entry of its name and size. *)
Theorem handleFiles_extends (E : Engine) (files : list File) (w : Assignment.Widget) :
  exists added,
    Assignment.selectedFiles (snd (Assignment.handleFiles E files w))
    = Assignment.selectedFiles w ++ added
    /\ incl added files
    /\ (fst (Assignment.handleFiles E files w) = Normal tt ->
        forall f, In f files ->
          In (key f)
             (map key (Assignment.selectedFiles (snd (Assignment.handleFiles E files w))))).
Proof.
  destruct (handleFiles_taken E files w) as (taken & rest & Hsplit & Hsel & Hend).
  destruct (stage_fold_grows taken (Assignment.selectedFiles w)) as (added & H1 & H2 & H3).
  exists added. repeat split.
  - rewrite Hsel. assumption.
  - intros x Hx. rewrite Hsplit. apply in_or_app. left. apply H2. assumption.
  - intros Hdone f Hf. rewrite (Hend Hdone), app_nil_r in Hsplit. subst taken.
    apply existsb_same_key_iff. rewrite Hsel. apply H3. assumption.
Qed.






(* ================================================================== *)
(** * More on submitting *)

Section AssignmentSubmitMore.
Import Assignment.
Variable E : Engine.

(** With files staged, one request goes out, whatever comes back. *)
Lemma submit_one_request (reply : NetReply) (w : Widget) :
  selectedFiles w <> [] ->
  requests (trace (snd (submit E reply w)))
  = requests (trace w)
    ++ [Fetch "/upload" "POST" (payload (form_values (form w)) (selectedFiles w))].
Proof.
  intros Hsel. run_assignment_submit.
  destruct (selectedFiles w) eqn:Hs; [congruence|].
  split_tests; simpl; unfold requests; rewrite ?filter_app; simpl;
    rewrite ?app_nil_r; reflexivity.
Qed.

(** An error outcome leaves the variable, the list and the form alone. *)
Lemma submit_error_keeps (reply : NetReply) (w : Widget) :
  className (status (snd (submit E reply w))) = "error" ->
  selectedFiles (snd (submit E reply w)) = selectedFiles w
  /\ fileListEl (snd (submit E reply w)) = fileListEl w
  /\ form (snd (submit E reply w)) = form w.
Proof.
  unfold submit, upload, on_error, fetch, json_parse. unfold_js.
  split_tests; simpl; intros H; try discriminate; auto.
Qed.

End AssignmentSubmitMore.

Section NotesSubmitMore.
Import Notes.
Variable E : Engine.

Lemma notes_submit_one_request (reply : NetReply) (w : Widget) :
  requests (trace (snd (submit E reply w)))
  = requests (trace w)
    ++ [Fetch "/notes/upload" "POST" (payload (title w) (subject w) (selectedFiles w))].
Proof.
  unfold submit, upload, fetch, response_json. unfold_js.
  split_tests; simpl; unfold requests; rewrite ?filter_app; simpl;
    rewrite ?app_nil_r; reflexivity.
Qed.

Lemma notes_handleFiles_lists (files : list File) (w : Widget) :
  fileList (handleFiles files w) = fileList w ++ map name files.
Proof.
  unfold handleFiles. revert w.
  induction files as [|f files IH]; simpl; intros w.
  - rewrite app_nil_r. reflexivity.
  - rewrite IH. simpl. rewrite <- app_assoc. reflexivity.
Qed.

Lemma notes_handleFiles_frame (files : list File) (w : Widget) :
  trace (handleFiles files w) = trace w /\
  title (handleFiles files w) = title w /\
  subject (handleFiles files w) = subject w /\
  highlight (handleFiles files w) = highlight w /\
  fileInput_value (handleFiles files w) = fileInput_value w.
Proof.
  unfold handleFiles. revert w.
  induction files as [|f files IH]; simpl; intros w; [auto|].
  destruct (IH (handleFile f w)) as (H1 & H2 & H3 & H4 & H5).
  rewrite H1, H2, H3, H4, H5. simpl. auto.
Qed.

(** The variable and the list after a submit: both as before, or both
    empty. *)
Lemma notes_submit_frame (reply : NetReply) (w : Widget) :
  (selectedFiles (snd (submit E reply w)) = selectedFiles w
   /\ fileList (snd (submit E reply w)) = fileList w)
  \/ (selectedFiles (snd (submit E reply w)) = []
      /\ fileList (snd (submit E reply w)) = []).
Proof.
  unfold submit, upload, fetch, response_json. unfold_js.
  split_tests; simpl; auto.
Qed.

End NotesSubmitMore.

(** X6.  A submit that gets past validation sends exactly one request:
    the first script, with files staged, a POST to [/upload] carrying the
    form's fields and then one [files] entry per staged file in staging
    order; the second script, staged files or none, a POST to
    [/notes/upload] carrying [title], [subject] and then the files.  This is
    so whatever the network answers. *)
Theorem submit_sends_once
  (E : Engine) (reply : NetReply) (w1 : Assignment.Widget) (w2 : Notes.Widget) :
  Assignment.selectedFiles w1 <> [] ->
  requests (Assignment.trace (snd (Assignment.submit E reply w1)))
  = requests (Assignment.trace w1)
    ++ [Fetch "/upload" "POST"
          (map (fun kv => (fst kv, Field (snd kv)))
               (form_values (Assignment.form w1))
           ++ map (fun file => ("files", Blob file)) (Assignment.selectedFiles w1))]
  /\
  requests (Notes.trace (snd (Notes.submit E reply w2)))
  = requests (Notes.trace w2)
    ++ [Fetch "/notes/upload" "POST"
          ([("title", Field (Notes.title w2)); ("subject", Field (Notes.subject w2))]
           ++ map (fun file => ("files", Blob file)) (Notes.selectedFiles w2))].
Proof.
  intros Hsel. split.
  - apply (submit_one_request E reply w1 Hsel).
  - apply (notes_submit_one_request E reply w2).
Qed.

Lemma submit_sends_once_witness :
  requests
    (Assignment.trace
       (snd (Assignment.submit Sample.engine (Rejected connection_refused)
               assignment_staged)))
  = [Fetch "/upload" "POST"
       [("title", Field "Essay"); ("files", Blob report_pdf); ("files", Blob notes_txt)]].
Proof.
  apply (submit_sends_once Sample.engine (Rejected connection_refused)
           assignment_staged notes_blank).
  discriminate.
Defined.

(** X7.  Whatever the network answers, the first script's listener ends
    in one of two ways: the status element shows [Upload successful!] in
    class [success], and the variable and the list are empty and the form
    reset; or the status element is in class [error], and the variable, the
    list and the form are as they were. *)
Theorem submit_clears_only_on_success
  (E : Engine) (reply : NetReply) (w : Assignment.Widget) :
  (Assignment.status (snd (Assignment.submit E reply w))
   = Assignment.mkStatus "Upload successful!" "success"
   /\ Assignment.selectedFiles (snd (Assignment.submit E reply w)) = []
   /\ Assignment.fileListEl (snd (Assignment.submit E reply w)) = []
   /\ Assignment.form (snd (Assignment.submit E reply w))
      = Form_reset (Assignment.form w))
  \/
  (Assignment.className (Assignment.status (snd (Assignment.submit E reply w))) = "error"
   /\ Assignment.selectedFiles (snd (Assignment.submit E reply w))
      = Assignment.selectedFiles w
   /\ Assignment.fileListEl (snd (Assignment.submit E reply w)) = Assignment.fileListEl w
   /\ Assignment.form (snd (Assignment.submit E reply w)) = Assignment.form w).
Proof.
  unfold Assignment.submit, Assignment.upload, Assignment.on_error,
         Assignment.fetch, Assignment.json_parse.
  unfold_js. split_tests; simpl; auto 10.
Qed.

(** X8.  A 2xx response whose body parses to data with a [status] other
    than [success] and a [message] that is absent or falsy (empty, null,
    zero, false): the status element shows [Upload failed] in class
    [error], and the staged files and their list are as they were. *)
Theorem failure_without_message
  (E : Engine) (r : Response) (text : string) (data st m : JsValue)
  (w : Assignment.Widget) :
  Assignment.selectedFiles w <> [] ->
  res_ok r = true ->
  res_text r = Normal text ->
  JSON_parse E text = Normal data ->
  Get E data "status" = Normal st ->
  strict_eq_string st "success" = false ->
  Get E data "message" = Normal m ->
  ToBoolean m = false ->
  let out := Assignment.submit E (Responded r) w in
  fst out = Normal tt
  /\ Assignment.status (snd out) = Assignment.mkStatus "Upload failed" "error"
  /\ Assignment.selectedFiles (snd out) = Assignment.selectedFiles w
  /\ Assignment.fileListEl (snd out) = Assignment.fileListEl w.
Proof.
  intros Hsel Hok Htext Hparse Hst Hne Hm Hfalsy. cbv zeta.
  run_assignment_submit.
  destruct (Assignment.selectedFiles w) eqn:Hs; [congruence|]. simpl.
  rewrite Htext, Hok. simpl. rewrite Hparse, Hst. simpl. rewrite Hne, Hm. simpl.
  unfold js_or. rewrite Hfalsy. simpl. rewrite Hs. repeat split; reflexivity.
Qed.

Lemma failure_without_message_witness :
  Assignment.status
    (snd (Assignment.submit Sample.engine
            (reply_with 200 "application/json" bare_error_body) assignment_staged))
  = Assignment.mkStatus "Upload failed" "error".
Proof.
  apply (failure_without_message Sample.engine
           (mkResponse 200 (Some "application/json") (Normal bare_error_body))
           bare_error_body (JObject [("status", JString "error")])
           (JString "error") JUndefined assignment_staged);
    try reflexivity.
  discriminate.
Defined.

(** X9.  A 2xx response whose body parses to data with a [status] other
    than [success] and a truthy [message] of any kind: the status element,
    in class [error], shows the message converted to text; when the
    conversion throws (an object with a [toString] entry of its own) the
    error is caught and shown by its message under the rule of line 90.
    Either way the listener ends normally and the staged files are as they
    were. *)
Theorem failure_with_message
  (E : Engine) (r : Response) (text : string) (data st m : JsValue)
  (w : Assignment.Widget) :
  Assignment.selectedFiles w <> [] ->
  res_ok r = true ->
  res_text r = Normal text ->
  JSON_parse E text = Normal data ->
  Get E data "status" = Normal st ->
  strict_eq_string st "success" = false ->
  Get E data "message" = Normal m ->
  ToBoolean m = true ->
  let out := Assignment.submit E (Responded r) w in
  fst out = Normal tt
  /\ Assignment.status (snd out)
     = Assignment.mkStatus
         (match ToString E m with
          | Normal shown => shown
          | Throw err => Assignment.error_text (err_message err)
          end) "error"
  /\ Assignment.selectedFiles (snd out) = Assignment.selectedFiles w
  /\ Assignment.fileListEl (snd out) = Assignment.fileListEl w.
Proof.
  intros Hsel Hok Htext Hparse Hst Hne Hm Htruthy. cbv zeta.
  run_assignment_submit.
  destruct (Assignment.selectedFiles w) eqn:Hs; [congruence|]. simpl.
  rewrite Htext, Hok. simpl. rewrite Hparse, Hst. simpl. rewrite Hne, Hm. simpl.
  unfold js_or. rewrite Htruthy.
  assert (Hdom : ToDOMString E m = ToString E m)
    by (destruct m; simpl in Htruthy; try discriminate; reflexivity).
  rewrite Hdom. destruct (ToString E m); simpl; rewrite Hs; repeat split; reflexivity.
Qed.

Lemma failure_with_message_witness :
  Assignment.status
    (snd (Assignment.submit Sample.engine
            (reply_with 200 "application/json" odd_message_body) assignment_staged))
  = Assignment.mkStatus "Cannot convert object to primitive value" "error".
Proof.
  apply (failure_with_message Sample.engine
           (mkResponse 200 (Some "application/json") (Normal odd_message_body))
           odd_message_body
           (JObject [("status", JString "error");
                     ("message", JObject [("toString", JNumber (mkNumber false "1"))])])
           (JString "error")
           (JObject [("toString", JNumber (mkNumber false "1"))])
           assignment_staged);
    try reflexivity.
  discriminate.
Defined.

(** X10.  A 2xx response whose body parses to [null]: reading [status]
    off it throws inside the [try]; the error is caught, the status element
    shows the engine's message (under the rule of line 90) in class [error],
    and the staged files and their list are as they were. *)
Theorem null_body_is_caught
  (E : Engine) (r : Response) (text : string) (w : Assignment.Widget) :
  Assignment.selectedFiles w <> [] ->
  res_ok r = true ->
  res_text r = Normal text ->
  JSON_parse E text = Normal JNull ->
  let out := Assignment.submit E (Responded r) w in
  fst out = Normal tt
  /\ Assignment.status (snd out)
     = Assignment.mkStatus
         (Assignment.error_text (read_of_nullish_message E JNull "status")) "error"
  /\ Assignment.selectedFiles (snd out) = Assignment.selectedFiles w
  /\ Assignment.fileListEl (snd out) = Assignment.fileListEl w.
Proof.
  intros Hsel Hok Htext Hparse. cbv zeta.
  run_assignment_submit.
  destruct (Assignment.selectedFiles w) eqn:Hs; [congruence|]. simpl.
  rewrite Htext, Hok. simpl. rewrite Hparse. simpl.
  rewrite Hs. repeat split; reflexivity.
Qed.

Lemma null_body_is_caught_witness :
  Assignment.status
    (snd (Assignment.submit Sample.engine
            (reply_with 200 "application/json" "null") assignment_staged))
  = Assignment.mkStatus "Cannot read properties of null (reading 'status')" "error".
Proof.
  apply (null_body_is_caught Sample.engine
           (mkResponse 200 (Some "application/json") (Normal "null"))
           "null" assignment_staged);
    try reflexivity.
  discriminate.
Defined.

(** X11.  A response whose body cannot be read ([res.text()] rejects),
    whatever its status: nothing is parsed, the error is caught, the status
    element shows its message (under the rule of line 90) in class [error],
    and the staged files and their list are as they were. *)
Theorem unreadable_body_is_caught
  (E : Engine) (r : Response) (err : JsError) (w : Assignment.Widget) :
  Assignment.selectedFiles w <> [] ->
  res_text r = Throw err ->
  let out := Assignment.submit E (Responded r) w in
  fst out = Normal tt
  /\ Assignment.status (snd out)
     = Assignment.mkStatus (Assignment.error_text (err_message err)) "error"
  /\ parses (Assignment.trace (snd out)) = parses (Assignment.trace w)
  /\ Assignment.selectedFiles (snd out) = Assignment.selectedFiles w
  /\ Assignment.fileListEl (snd out) = Assignment.fileListEl w.
Proof.
  intros Hsel Htext. cbv zeta.
  run_assignment_submit.
  destruct (Assignment.selectedFiles w) eqn:Hs; [congruence|]. simpl.
  rewrite Htext. simpl. rewrite Hs.
  repeat split; try reflexivity.
  unfold parses. rewrite !filter_app. simpl. rewrite !app_nil_r. reflexivity.
Qed.

Lemma unreadable_body_is_caught_witness :
  Assignment.status
    (snd (Assignment.submit Sample.engine
            (Responded (mkResponse 200 None (Throw (mkError "TypeError" "network error"))))
            assignment_staged))
  = Assignment.mkStatus "network error" "error".
Proof.
  apply (unreadable_body_is_caught Sample.engine
           (mkResponse 200 None (Throw (mkError "TypeError" "network error")))
           (mkError "TypeError" "network error") assignment_staged).
  - discriminate.
  - reflexivity.
Defined.

(** X12.  After a submit that ended in an error, a second submit sends
    the request the first one sent: the same fields and the same files in
    the same order, with nothing to pick again. *)
Theorem retry_sends_the_same
  (E : Engine) (first second : NetReply) (w : Assignment.Widget) :
  Assignment.selectedFiles w <> [] ->
  Assignment.className (Assignment.status (snd (Assignment.submit E first w))) = "error" ->
  let w1 := snd (Assignment.submit E first w) in
  requests (Assignment.trace (snd (Assignment.submit E second w1)))
  = requests (Assignment.trace w)
    ++ [Fetch "/upload" "POST"
          (Assignment.payload (form_values (Assignment.form w))
                              (Assignment.selectedFiles w));
        Fetch "/upload" "POST"
          (Assignment.payload (form_values (Assignment.form w))
                              (Assignment.selectedFiles w))].
Proof.
  intros Hsel Herr. cbv zeta.
  destruct (submit_error_keeps E first w Herr) as (Hs & _ & Hf).
  rewrite submit_one_request by (rewrite Hs; assumption).
  rewrite Hs, Hf. rewrite submit_one_request by assumption.
  rewrite <- app_assoc. reflexivity.
Qed.

Lemma retry_sends_the_same_witness :
  requests
    (Assignment.trace
       (snd (Assignment.submit Sample.engine
               (reply_with 200 "application/json" success_body)
               (snd (Assignment.submit Sample.engine (Rejected connection_refused)
                       assignment_staged)))))
  = [Fetch "/upload" "POST"
       [("title", Field "Essay"); ("files", Blob report_pdf); ("files", Blob notes_txt)];
     Fetch "/upload" "POST"
       [("title", Field "Essay"); ("files", Blob report_pdf); ("files", Blob notes_txt)]].
Proof.
  apply (retry_sends_the_same Sample.engine (Rejected connection_refused)
           (reply_with 200 "application/json" success_body) assignment_staged).
  - discriminate.
  - reflexivity.
Defined.

(* ================================================================== *)
(** * More on the second script *)

(** X13.  The second script stages every file it is handed, duplicates
    and all, in the order handed, with one list item per file showing its
    name; it calls nothing on the platform and leaves the two fields alone.
    After a drop the highlight is off, after a pick the picker is empty. *)
Theorem notes_staging_appends (files : list File) (w : Notes.Widget) :
  (Notes.selectedFiles (Notes.on_drop files w) = Notes.selectedFiles w ++ files
   /\ Notes.fileList (Notes.on_drop files w) = Notes.fileList w ++ map name files
   /\ Notes.trace (Notes.on_drop files w) = Notes.trace w
   /\ Notes.title (Notes.on_drop files w) = Notes.title w
   /\ Notes.subject (Notes.on_drop files w) = Notes.subject w
   /\ Notes.highlight (Notes.on_drop files w) = false)
  /\
  (Notes.selectedFiles (Notes.on_change files w) = Notes.selectedFiles w ++ files
   /\ Notes.fileList (Notes.on_change files w) = Notes.fileList w ++ map name files
   /\ Notes.trace (Notes.on_change files w) = Notes.trace w
   /\ Notes.title (Notes.on_change files w) = Notes.title w
   /\ Notes.subject (Notes.on_change files w) = Notes.subject w
   /\ Notes.fileInput_value (Notes.on_change files w) = EmptyString).
Proof.
  split.
  - unfold Notes.on_drop.
    rewrite notes_handleFiles_appends, notes_handleFiles_lists.
    destruct (notes_handleFiles_frame files (Notes.set_highlight false w))
      as (H1 & H2 & H3 & H4 & _).
    rewrite H1, H2, H3, H4. simpl. auto 10.
  - unfold Notes.on_change. simpl.
    rewrite notes_handleFiles_appends, notes_handleFiles_lists.
    destruct (notes_handleFiles_frame files w) as (H1 & H2 & H3 & _).
    auto 10.
Qed.

(** X14.  In every state the second script's page can be in, the list
    shows the names of the staged files, one item per file and in the same
    order. *)
Theorem notes_list_mirrors_selection (E : Engine) (w : Notes.Widget) :
  Notes.reachable E w ->
  Notes.fileList w = map name (Notes.selectedFiles w).
Proof.
  induction 1 as [w [Hs Hl] | | | w files _ IH | w files _ IH | w reply _ IH].
  - rewrite Hs, Hl. reflexivity.
  - assumption.
  - assumption.
  - unfold Notes.on_drop.
    rewrite notes_handleFiles_appends, notes_handleFiles_lists. simpl.
    rewrite IH, map_app. reflexivity.
  - unfold Notes.on_change. simpl.
    rewrite notes_handleFiles_appends, notes_handleFiles_lists.
    rewrite IH, map_app. reflexivity.
  - destruct (notes_submit_frame E reply w) as [[Hs Hl] | [Hs Hl]];
      rewrite Hs, Hl; [assumption | reflexivity].
Qed.

Lemma notes_list_mirrors_selection_witness :
  Notes.fileList
    (Notes.on_change [report_again] (Notes.on_drop [report_pdf; notes_txt] notes_blank))
  = ["report.pdf"; "notes.txt"; "report.pdf"].
Proof.
  apply (notes_list_mirrors_selection Sample.engine).
  apply Notes.reach_change, Notes.reach_drop, Notes.reach_initial.
  split; reflexivity.
Defined.

(** X15.  Whatever the network answers, the second script's listener ends
    by showing one of three fixed texts.  With the success text the
    variable and the list are empty and the two fields reset.  With either
    of the other two, which are the literal texts of lines 159 and 162 and
    carry no message of the server or of the error, the variable, the list
    and the two fields are as they were. *)
Theorem notes_submit_alerts
  (E : Engine) (reply : NetReply) (w : Notes.Widget) :
  (exists calls,
     Notes.trace (snd (Notes.submit E reply w))
     = Notes.trace w ++ calls ++ [Alert "Study materials uploaded successfully!"]
     /\ Notes.selectedFiles (snd (Notes.submit E reply w)) = []
     /\ Notes.fileList (snd (Notes.submit E reply w)) = []
     /\ Notes.title (snd (Notes.submit E reply w)) = Notes.title_default w
     /\ Notes.subject (snd (Notes.submit E reply w)) = Notes.subject_default w)
  \/
  (exists calls shown,
     Notes.trace (snd (Notes.submit E reply w)) = Notes.trace w ++ calls ++ [Alert shown]
     /\ (shown = "Error: {data.message || 'Upload failed'}"
         \/ shown = "Error: {err.message}")
     /\ Notes.selectedFiles (snd (Notes.submit E reply w)) = Notes.selectedFiles w
     /\ Notes.fileList (snd (Notes.submit E reply w)) = Notes.fileList w
     /\ Notes.title (snd (Notes.submit E reply w)) = Notes.title w
     /\ Notes.subject (snd (Notes.submit E reply w)) = Notes.subject w).
Proof.
  unfold Notes.submit, Notes.upload, Notes.fetch, Notes.response_json. unfold_js.
  split_tests; simpl; rewrite <- ?app_assoc; simpl;
    match goal with
    | |- (exists calls, _ ++ ?l = _ ++ calls ++ [Alert ?a] /\ _) \/ _ =>
        lazymatch l with
        | context [Alert a] =>
            left; exists (removelast l); simpl; repeat split; reflexivity
        | _ =>
            right; exists (removelast l); simpl; eexists;
            split; [reflexivity | unfold Notes.failed_text, Notes.caught_text; auto 10]
        end
    end.
Qed.

(* ================================================================== *)
(** * From picking to sending *)






(** X18.  In a state the page can be in, a staged file whose markup lost
    its remove button is the file of no item: no click on a remove button
    takes it out of the variable, and a submit sends it with the rest. *)
Theorem unlisted_file_stays
  (E : Engine) (w : Assignment.Widget) (f : File) :
  Assignment.reachable E w ->
  In f (Assignment.selectedFiles w) ->
  Assignment.listable E f = false ->
  (forall li, In li (Assignment.fileListEl w) ->
     Assignment.li_file li <> f
     /\ In f (Assignment.selectedFiles (Assignment.remove_onclick li w)))
  /\ (forall reply, exists body,
        In (Fetch "/upload" "POST" body)
           (requests (Assignment.trace (snd (Assignment.submit E reply w))))
        /\ In ("files", Blob f) body).
Proof.
  intros Hr Hin Hl. apply (reachable_consistent E) in Hr. destruct Hr as (_ & Hli & _).
  split.
  - intros li Hli_in.
    assert (Hne : Assignment.li_file li <> f).
    { intros Heq. apply (in_map Assignment.li_file) in Hli_in.
      rewrite Hli in Hli_in. apply filter_In in Hli_in.
      rewrite Heq in Hli_in. destruct Hli_in as [_ Hyes]. congruence. }
    split; [assumption|].
    simpl. unfold Assignment.remove_by_identity. apply filter_In. split; [assumption|].
    apply negb_true_iff. apply not_true_is_false. rewrite File_eqb_iff. congruence.
  - intros reply.
    exists (Assignment.payload (form_values (Assignment.form w)) (Assignment.selectedFiles w)).
    split.
    + rewrite submit_one_request by (intros Hnil; rewrite Hnil in Hin; exact Hin).
      apply in_or_app. right. left. reflexivity.
    + unfold Assignment.payload. apply in_or_app. right.
      apply (in_map (fun file => ("files", Blob file))). assumption.
Qed.

Lemma unlisted_file_stays_witness :
  In comment_txt
     (Assignment.selectedFiles
        (Assignment.remove_onclick (Assignment.mkLi 1 notes_txt)
           (Assignment.on_change Sample.engine [notes_txt]
              (Assignment.on_drop Sample.engine [comment_txt] assignment_blank)))).
Proof.
  destruct (unlisted_file_stays Sample.engine
              (Assignment.on_change Sample.engine [notes_txt]
                 (Assignment.on_drop Sample.engine [comment_txt] assignment_blank))
              comment_txt) as [H _].
  - apply Assignment.reach_change, Assignment.reach_drop, Assignment.reach_initial.
    split; reflexivity.
  - simpl. auto.
  - reflexivity.
  - apply (H (Assignment.mkLi 1 notes_txt)). simpl. auto.
Defined.
